(** * pyctd: the import pipeline of [pyctd/manager/database.py]

    A shallow embedding of [DbManager] (schema reconciliation, the
    surrogate-key mapper, the table loader and the one-to-many expander)
    together with the properties the specification states about it.

    Text is modelled as [string] over ASCII code points.  A parsed file
    cell is a [cell]: a text, an integer, another non-text value carried
    by its [str()] rendering, or pandas' missing value [NaN]. *)

From Stdlib Require Import ZArith Lia String Ascii.
From stdpp Require Import base list sorting strings pretty gmap fin_maps.

Local Open Scope string_scope.
Local Open Scope list_scope.
Local Open Scope Z_scope.

(** ** Python string primitives used by the source *)

Module PyStr.

(** [s.startswith(p)] *)
Fixpoint startswith (p s : string) : bool :=
  match p, s with
  | EmptyString, _ => true
  | String a p', String b s' => if Ascii.eqb a b then startswith p' s' else false
  | String _ _, EmptyString => false
  end.

(** [s[n:]] *)
Fixpoint drop (n : nat) (s : string) : string :=
  match n, s with
  | O, _ => s
  | S n', String _ s' => drop n' s'
  | S _, EmptyString => EmptyString
  end.

(** The scanning loop of [str.replace(old, new)] for a non-empty [old]:
    [skip] counts the characters of a match still to be consumed.  Matches
    are taken leftmost first and never overlap. *)
Fixpoint replace_go (old new : string) (skip : nat) (s : string) : string :=
  match s with
  | EmptyString => EmptyString
  | String c s' =>
      match skip with
      | S k => replace_go old new k s'
      | O =>
          if startswith old s
          then new +:+ replace_go old new (Nat.pred (String.length old)) s'
          else String c (replace_go old new O s')
      end
  end.

(** [s.replace(old, new)], for [old] not empty (the source only passes
    the literal ['MESH:']). *)
Definition replace (old new s : string) : string := replace_go old new O s.

(** [c.isspace()] on the ASCII range: TAB, LF, VT, FF, CR, the four
    separators FS, GS, RS, US, and the space. *)
Definition isspace (c : ascii) : bool :=
  let n := nat_of_ascii c in
  ((9 <=? n)%nat && (n <=? 13)%nat) || ((28 <=? n)%nat && (n <=? 32)%nat).

(** [s.lstrip()] *)
Fixpoint lstrip (s : string) : string :=
  match s with
  | EmptyString => EmptyString
  | String c s' => if isspace c then lstrip s' else s
  end.

(** [s.rstrip()] *)
Fixpoint rstrip (s : string) : string :=
  match s with
  | EmptyString => EmptyString
  | String c s' =>
      match rstrip s' with
      | EmptyString => if isspace c then EmptyString else String c EmptyString
      | r => String c r
      end
  end.

(** [s.strip()] *)
Definition strip (s : string) : string := rstrip (lstrip s).

(** [s.split(sep)] for a one-character separator: the pieces between the
    separators, so [n] separators give [n + 1] pieces and the empty text
    gives one empty piece. *)
Fixpoint split (sep : ascii) (s : string) : list string :=
  match s with
  | EmptyString => [EmptyString]
  | String c s' =>
      if Ascii.eqb c sep then EmptyString :: split sep s'
      else match split sep s' with
           | p :: ps => String c p :: ps
           | [] => [String c EmptyString]
           end
  end.

(** [s.endswith(p)] *)
Definition endswith (p s : string) : bool :=
  startswith (String.rev p) (String.rev s).

(** [s[:len(s) - n]] *)
Definition drop_end (n : nat) (s : string) : string :=
  String.rev (drop n (String.rev s)).

End PyStr.

(** ** Values and data frames *)

(** A parsed value: text, an integer, any other non-text value (a float,
    a boolean) carried by its [str()] rendering, or the missing value. *)
Inductive cell : Type :=
  | Str (s : string)
  | Int (z : Z)
  | Obj (repr : string)
  | NaN.

#[global] Instance cell_eq_dec : EqDecision cell.
Proof. solve_decision. Defined.

(** Python's [str(v)] on a present value. *)
Definition py_str (v : cell) : string :=
  match v with
  | Str s => s
  | Int z => pretty z
  | Obj r => r
  | NaN => "nan"
  end.

(** [isinstance(v, str)] *)
Definition is_str (v : cell) : bool :=
  match v with Str _ => true | _ => false end.

(** [v + 1] on an index label: integers advance, the missing value
    stays missing, a text cannot be added to a number. *)
Definition succ_label (v : cell) : option cell :=
  match v with
  | Int z => Some (Int (z + 1))
  | NaN => Some NaN
  | Str _ | Obj _ => None
  end.

(** ['MESH:' + v] on one element of a text column: the missing value
    stays missing, a number cannot be added to a text. *)
Definition prepend (p : string) (v : cell) : option cell :=
  match v with
  | Str s => Some (Str (p +:+ s))
  | NaN => Some NaN
  | Int _ | Obj _ => None
  end.

(** A data frame: its column labels, and its rows, each with its index
    label and its values by column label. *)
Record frame : Type := Frame {
  index_name : option string;
  cols : list string;
  rows : list (cell * gmap string cell)
}.

(** Python exceptions are carried by their class name. *)
Inductive result (A : Type) : Type :=
  | Ok (a : A)
  | Raise (exn : string).
Arguments Ok {A} a.
Arguments Raise {A} exn.

#[global] Instance result_ret : MRet result := fun _ a => Ok a.
#[global] Instance result_bind : MBind result := fun _ _ k r =>
  match r with
  | Ok a => k a
  | Raise e => Raise e
  end.

(** ** The pandas operations the source calls *)

Module Pd.

Abbreviation row := (gmap string cell).

(** [frame[c]] on one row; a missing entry reads as the missing value. *)
Definition get (c : string) (r : row) : cell := default NaN (r !! c).

(** Rows labelled by a [RangeIndex] that starts at [start]. *)
Fixpoint range_index {A : Type} (start : Z) (l : list A) : list (cell * A) :=
  match l with
  | [] => []
  | x :: l' => (Int start, x) :: range_index (start + 1) l'
  end.

(** One parsed line of the file, restricted to the positions [usecols]
    and labelled with [names]; a line too short reads as missing. *)
Definition select (usecols : list nat) (names : list string) (line : list cell) : row :=
  list_to_map (zip names ((fun i => default NaN (line !! i)) <$> usecols)).

(** [pd.read_table(..., usecols, names, header=None, comment='#',
    index_col=False)] on the parsed data lines: the whole file as one
    frame, rows labelled with their 0-based ordinal.  With an empty
    [usecols] no column is parsed and the frame has no rows. *)
Definition read_table (usecols : list nat) (names : list string)
    (data : list (list cell)) : frame :=
  Frame None names
        (match usecols with
         | [] => []
         | _ :: _ => range_index 0 (select usecols names <$> data)
         end).

(** Whether the row labelled [i] is the last one of its chunk. *)
Definition closes_chunk (size : Z) (i : cell) : bool :=
  match i with
  | Int z => (z + 1) mod size =? 0
  | _ => false
  end.

(** Cutting a labelled row sequence into chunks of [size] rows: the row
    whose ordinal is the last of its chunk closes the chunk.  Labels are
    those of the whole file; the reader does not restart them. *)
Fixpoint chunked {A : Type} (size : Z) (l : list (cell * A)) : list (list (cell * A)) :=
  match l with
  | [] => []
  | (i, x) :: l' =>
      match chunked size l' with
      | [] => [[(i, x)]]
      | c :: cs =>
          if closes_chunk size i
          then [(i, x)] :: c :: cs
          else ((i, x) :: c) :: cs
      end
  end.

(** [pd.read_table(..., usecols, names, chunksize=size)]: the reader, as
    the chunks it yields, or the exception building it raises.  The rows
    are those of [read_table], delivered [size] lines at a time; with an
    empty [usecols] every chunk comes without rows.  On a file without
    data lines the reader yields one chunk without rows under the names
    given; without names either there is no column to parse and
    building the reader raises. *)
Definition read_table_chunks (usecols : list nat) (names : list string)
    (size : Z) (data : list (list cell)) : result (list frame) :=
  match data with
  | [] =>
      match names with
      | [] => Raise "EmptyDataError"
      | _ :: _ => Ok [Frame None names []]
      end
  | _ :: _ =>
      Ok (Frame None names <$>
            match usecols with
            | [] => (fun _ => []) <$> chunked size (range_index 0 data)
            | _ :: _ => chunked size (rows (read_table usecols names data))
            end)
  end.

(** [pd.read_table(..., usecols=[column_index], header=None,
    chunksize=size)] without names: the one column is labelled by its
    position; on a file without data lines there is no column to parse
    and building the reader raises. *)
Definition read_column_chunks (column_index : nat) (size : Z)
    (data : list (list cell)) : result (list frame) :=
  match data with
  | [] => Raise "EmptyDataError"
  | _ :: _ =>
      Ok (Frame None [pretty column_index]
            <$> chunked size (rows (read_table [column_index] [pretty column_index] data)))
  end.

(** [frame.dropna()]: the rows with a missing value in some column go,
    the others keep their labels. *)
Definition dropna (f : frame) : frame :=
  Frame (index_name f) (cols f)
        (filter (fun ir => forallb (fun c => bool_decide (get c ir.2 <> NaN)) (cols f)) (rows f)).

(** [frame.index += 1] *)
Fixpoint shift_index (l : list (cell * row)) : result (list (cell * row)) :=
  match l with
  | [] => Ok []
  | (i, r) :: l' =>
      match succ_label i with
      | Some j => l'' ← shift_index l'; Ok ((j, r) :: l'')
      | None => Raise "TypeError"
      end
  end.

(** [frame[c] = frame.index + 1] *)
Fixpoint assign_index_plus_one (c : string) (l : list (cell * row)) : result (list (cell * row)) :=
  match l with
  | [] => Ok []
  | (i, r) :: l' =>
      match succ_label i with
      | Some j => l'' ← assign_index_plus_one c l'; Ok ((i, <[c := j]> r) :: l'')
      | None => Raise "TypeError"
      end
  end.

Definition set_index_plus_one (c : string) (f : frame) : result frame :=
  l ← assign_index_plus_one c (rows f);
  Ok (Frame (index_name f)
            (if bool_decide (c ∈ cols f) then cols f else cols f ++ [c]) l).

(** [frame.c = p + frame.c] for a text [p]. *)
Fixpoint prepend_rows (p c : string) (l : list (cell * row)) : result (list (cell * row)) :=
  match l with
  | [] => Ok []
  | (i, r) :: l' =>
      match prepend p (get c r) with
      | Some v => l'' ← prepend_rows p c l'; Ok ((i, <[c := v]> r) :: l'')
      | None => Raise "TypeError"
      end
  end.

(** A column holds texts when the frame has no row or some value of the
    column is a text; a column of a frame with rows none of whose values
    is a text has been read as numbers. *)
Definition text_column (c : string) (f : frame) : bool :=
  bool_decide (rows f = []) || existsb (fun ir => is_str (get c ir.2)) (rows f).

(** [frame.c = p + frame.c]: the attribute is there for a column of the
    frame only, and a text cannot be added to a column of numbers. *)
Definition prepend_column (p c : string) (f : frame) : result frame :=
  if bool_decide (c ∈ cols f)
  then
    if text_column c f
    then l ← prepend_rows p c (rows f); Ok (Frame (index_name f) (cols f) l)
    else Raise "TypeError"
  else Raise "AttributeError".

(** [del frame[c]] *)
Definition del_column (c : string) (f : frame) : result frame :=
  if bool_decide (c ∈ cols f)
  then Ok (Frame (index_name f) (filter (fun c' => c' <> c) (cols f))
                 ((fun ir => (ir.1, delete c ir.2)) <$> rows f))
  else Raise "KeyError".

(** [frame.set_index(c, inplace=True)] *)
Definition set_index (c : string) (f : frame) : result frame :=
  if bool_decide (c ∈ cols f)
  then Ok (Frame (Some c) (filter (fun c' => c' <> c) (cols f))
                 ((fun ir => (get c ir.2, delete c ir.2)) <$> rows f))
  else Raise "KeyError".

(** The values of [r] at the columns [cs], relabelled by [rename]. *)
Definition relabel (rename : string -> string) (cs : list string) (r : row) : row :=
  list_to_map ((fun c => (rename c, get c r)) <$> cs).

(** [pd.merge(l, r, on=key, how='left')]: every row of [l], in order,
    once per row of [r] with the same key value (in the order of [r]),
    or once with the columns of [r] missing when there is none.  Columns
    other than the key that both frames have are told apart by the
    suffixes [_x] and [_y]; the result is labelled afresh. *)
Definition merge_left (l r : frame) (key : string) : result frame :=
  if bool_decide (key ∈ cols l) && bool_decide (key ∈ cols r) then
    let rrest := filter (fun c => c <> key) (cols r) in
    let shared c := bool_decide (c ∈ cols l) && bool_decide (c ∈ rrest) in
    let lname c := if shared c then c +:+ "_x" else c in
    let rname c := if shared c then c +:+ "_y" else c in
    let absent : row := list_to_map ((fun c => (rname c, NaN)) <$> rrest) in
    let joined :=
      concat ((fun il =>
        match filter (fun ir => bool_decide (get key ir.2 = get key il.2)) (rows r) with
        | [] => [relabel lname (cols l) il.2 ∪ absent]
        | ms => (fun ir => relabel lname (cols l) il.2 ∪ relabel rname rrest ir.2) <$> ms
        end) <$> rows l) in
    Ok (Frame None ((lname <$> cols l) ++ (rname <$> rrest)) (range_index 0 joined))
  else Raise "KeyError".

(** The rows [frame.to_sql(..., index=True)] sends: the index goes along
    as a column, under its name. *)
Definition sql_rows (with_index : bool) (f : frame) : list row :=
  (fun ir =>
     if with_index
     then <[default "index" (index_name f) := ir.1]> ir.2
     else ir.2) <$> rows f.

End Pd.

(** ** Configuration and the outside world *)

(** One entry of [table_conf.tables]. *)
Record table_conf : Type := TableConf {
  conf_columns : list (string * string);
  conf_file_name : string;
  conf_one_to_many : option (list (string * string));
  conf_domain_id_column : option (string * string)
}.

(** What the source imports from the modules [table_conf], [defaults],
    [constants] and [models], and the one library function it uses on
    URLs ([urlparse(url).path]). *)
Record config : Type := Config {
  tables : list (string * table_conf);
  domains_to_map : list string;
  TABLE_PREFIX : string;
  urls : list string;
  PYCTD_DATA_DIR : string;
  model_tables : list string;
  urlparse_path : string -> string
}.

(** A CTD download file: its text lines, and the data lines as the
    pandas reader parses them (comment lines skipped, cells by
    position). *)
Record ctd_file : Type := CtdFile {
  lines : list string;
  data : list (list cell)
}.

Inductive log_record : Type :=
  | LogInfo (msg : string)
  | LogException (expected actual : list string) (file_path : string).

(** The operations sent to the database and to the network, in order. *)
Inductive effect : Type :=
  | DropAll
  | CreateAll
  | UrlRetrieve (url file_path : string)
  | ToSql (name : string) (sent : list Pd.row).

Record world : Type := World {
  fs : gmap string ctd_file;
  web : gmap string ctd_file;
  db : gmap string (list Pd.row);
  log : list log_record;
  mapper_cache : gmap string frame;
  trace : list effect
}.

(** Computations that read and change the world and may raise; what was
    done before an exception stays done. *)
Definition M (A : Type) : Type := world -> result A * world.

#[global] Instance M_ret : MRet M := fun _ a w => (Ok a, w).
#[global] Instance M_bind : MBind M := fun _ _ k m w =>
  match m w with
  | (Ok a, w') => k a w'
  | (Raise e, w') => (Raise e, w')
  end.

Definition lift {A : Type} (r : result A) : M A := fun w => (r, w).

Definition raise {A : Type} (e : string) : M A := fun w => (Raise e, w).

Definition gets {A : Type} (f : world -> A) : M A := fun w => (Ok (f w), w).

Definition modify (f : world -> world) : M unit := fun w => (Ok tt, f w).

(** [for x in l: body(x)] *)
Fixpoint for_each {A : Type} (l : list A) (body : A -> M unit) : M unit :=
  match l with
  | [] => mret tt
  | x :: l' => _ ← body x; for_each l' body
  end.

(** [for x in l: acc = body(acc, x)] *)
Fixpoint for_fold {A B : Type} (l : list A) (body : B -> A -> M B) (acc : B) : M B :=
  match l with
  | [] => mret acc
  | x :: l' => acc' ← body acc x; for_fold l' body acc'
  end.

Definition log_info (msg : string) : M unit :=
  modify (fun w => World (fs w) (web w) (db w) (log w ++ [LogInfo msg])
                         (mapper_cache w) (trace w)).

Definition emit (e : effect) : M unit :=
  modify (fun w => World (fs w) (web w) (db w) (log w) (mapper_cache w)
                         (trace w ++ [e])).

(** [os.path.join(a, b)] *)
Definition path_join (a b : string) : string :=
  if PyStr.startswith "/" b then b
  else if bool_decide (a = "") || PyStr.endswith "/" a then a +:+ b
  else a +:+ "/" +:+ b.

(** [frame.to_sql(name, if_exists='append', con=engine, index=...)] *)
Definition to_sql (name : string) (with_index : bool) (f : frame) : M unit :=
  let sent := Pd.sql_rows with_index f in
  _ ← modify (fun w => World (fs w) (web w)
                             (<[name := default [] (db w !! name) ++ sent]> (db w))
                             (log w) (mapper_cache w) (trace w));
  emit (ToSql name sent).

(** ** class [Table] *)

Record Table : Type := MkTable {
  name : string;
  columns_in_file_expected : list string;
  columns_in_db : list string;
  columns_dict : gmap string string;
  file_name : string;
  one_to_many : list (string * string)
}.

(** [dict(pairs)]: a later pair replaces an earlier one with its key. *)
Definition py_dict (pairs : list (string * string)) : gmap string string :=
  list_to_map (reverse pairs).

(** [Table.__init__] *)
Definition Table_init (name : string) (conf : table_conf) : Table :=
  MkTable name
          (fst <$> conf_columns conf)
          (snd <$> conf_columns conf)
          (py_dict (conf_columns conf))
          (conf_file_name conf)
          (default [] (conf_one_to_many conf)).

(** ** class [DbManager] *)

Section DbManager.

Variable cfg : config.

(** [self.tables], as [DbManager.__init__] builds it. *)
Definition self_tables : list Table :=
  (fun nc => Table_init nc.1 nc.2) <$> tables cfg.

(** [re.search('#\s*Fields\s*:$', line)] on a stripped line: the line
    ends with [#], blanks, [Fields], blanks, [:]. *)
Definition fields_marker (line : string) : bool :=
  PyStr.endswith ":" line &&
  (let l1 := PyStr.rstrip (PyStr.drop_end 1 line) in
   PyStr.endswith "Fields" l1 &&
   (let l2 := PyStr.rstrip (PyStr.drop_end 6 l1) in
    PyStr.endswith "#" l2)).

(** The loop of [get_column_names_from_file]; falling off the end
    returns [None]. *)
Fixpoint column_names_scan (fields_line : bool) (ls : list string) : option (list string) :=
  match ls with
  | [] => None
  | line :: ls' =>
      let line := PyStr.strip line in
      if negb fields_line && fields_marker line then column_names_scan true ls'
      else if fields_line && negb (bool_decide (line = "") || bool_decide (line = "#"))
      then Some (PyStr.strip <$> PyStr.split "009" (PyStr.drop 1 line))
      else column_names_scan fields_line ls'
  end.

(** [open(file_path)] *)
Definition open_file (file_path : string) : M ctd_file := fun w =>
  match fs w !! file_path with
  | Some f => (Ok f, w)
  | None => (Raise "FileNotFoundError", w)
  end.

Definition get_column_names_from_file (file_path : string) : M (option (list string)) :=
  f ← open_file file_path;
  mret (column_names_scan false (lines f)).

(** [l.index(x)] for an [x] known to be in [l]. *)
Fixpoint list_index (x : string) (l : list string) : option nat :=
  match l with
  | [] => None
  | y :: l' => if bool_decide (y = x) then Some O else S <$> list_index x l'
  end.

Definition get_index_of_column (column file_path : string) : M (option nat) :=
  columns ← get_column_names_from_file file_path;
  match columns with
  | None => raise "TypeError"
  | Some columns =>
      if bool_decide (column ∈ columns) then mret (list_index column columns)
      else mret None
  end.

(** The [for index, column in enumerate(column_names_from_file)] loop of
    [get_index_and_columns_order]. *)
Fixpoint index_and_columns (columns_dict : gmap string string) (index : nat)
    (column_names_from_file : list string) : list nat * list string :=
  match column_names_from_file with
  | [] => ([], [])
  | column :: rest =>
      let r := index_and_columns columns_dict (S index) rest in
      match columns_dict !! column with
      | Some column_name_in_db => (index :: r.1, column_name_in_db :: r.2)
      | None => r
      end
  end.

Definition get_index_and_columns_order (columns_in_file_expected : list string)
    (columns_dict : gmap string string) (file_path : string)
    : M (list nat * list string) :=
  column_names_from_file ← get_column_names_from_file file_path;
  match column_names_from_file with
  | None => raise "TypeError"
  | Some column_names_from_file =>
      if negb (bool_decide (columns_in_file_expected ⊆ column_names_from_file))
      then
        _ ← modify (fun w => World (fs w) (web w) (db w)
                 (log w ++ [LogException columns_in_file_expected
                                         column_names_from_file file_path])
                 (mapper_cache w) (trace w));
        mret ([], [])
      else mret (index_and_columns columns_dict O column_names_from_file)
  end.

(** [series.str.replace('MESH:', '').str.strip()] on one element of a
    text column: an element that is not a text comes out missing. *)
Definition chemical_key (v : cell) : cell :=
  match v with
  | Str s => Str (PyStr.strip (PyStr.replace "MESH:" "" s))
  | _ => NaN
  end.

(** [df[c] = df[c].str.replace('MESH:', '').str.strip()]: the [.str]
    accessor exists on text columns only, so a column holding values
    none of which is a text raises. *)
Definition strip_mesh_column (c : string) (f : frame) : result frame :=
  if bool_decide (rows f = []) || existsb (fun ir => is_str (Pd.get c ir.2)) (rows f)
  then Ok (Frame (index_name f) (cols f)
                 ((fun ir => (ir.1, <[c := chemical_key (Pd.get c ir.2)]> ir.2)) <$> rows f))
  else Raise "AttributeError".

(** The body of the loop of the [mapper] property, from the parsed data
    lines of the domain's file on. *)
Definition mapper_frame (domain col_name_in_db : string) (column_index : nat)
    (data : list (list cell)) : result frame :=
  let df := Pd.read_table [column_index] [col_name_in_db] data in
  df ← (if bool_decide (domain = "chemical")
        then strip_mesh_column col_name_in_db df else Ok df);
  Pd.set_index_plus_one (domain +:+ "__id") df.

Definition mapper_domain (domain : string) : M unit :=
  match (list_to_map (tables cfg) : gmap string table_conf) !! domain with
  | None => raise "KeyError"
  | Some tab_conf =>
      let file_path := path_join (PYCTD_DATA_DIR cfg) (conf_file_name tab_conf) in
      match conf_domain_id_column tab_conf with
      | None => raise "KeyError"
      | Some (col_name_in_file, col_name_in_db) =>
          column_index ← get_index_of_column col_name_in_file file_path;
          match column_index with
          | None => raise "ValueError"
          | Some column_index =>
              f ← open_file file_path;
              df ← lift (mapper_frame domain col_name_in_db column_index (data f));
              modify (fun w => World (fs w) (web w) (db w) (log w)
                                     (<[domain := df]> (mapper_cache w)) (trace w))
          end
      end
  end.

(** The [mapper] property: the class-level cache is filled for all
    domains on the first access and served as it is afterwards. *)
Definition mapper : M (gmap string frame) :=
  cache ← gets mapper_cache;
  _ ← (if bool_decide (cache = ∅)
       then for_each (domains_to_map cfg) mapper_domain
       else mret tt);
  gets mapper_cache.

(** The [for parent_id, values in chunk.iterrows()] loop of
    [import_one_to_many]: the two lists it fills in step, as pairs. *)
Fixpoint one_to_many_rows (label : string) (l : list (cell * Pd.row)) : list (cell * string) :=
  match l with
  | [] => []
  | (parent_id, values) :: l' =>
      let entry := Pd.get label values in
      (* a text is taken as it is, anything else through [str(entry)] *)
      let entry := match entry with Str s => s | _ => py_str entry end in
      ((fun value => (parent_id, PyStr.strip value)) <$> PyStr.split "|" entry)
        ++ one_to_many_rows label l'
  end.

(** The body of [for chunk in chunks] of [import_one_to_many] up to the
    frame it writes. *)
Definition one_to_many_chunk (label : string) (chunk : frame) : result (list (cell * string)) :=
  let chunk := Pd.dropna chunk in
  l ← Pd.shift_index (rows chunk);
  Ok (one_to_many_rows label l).

(** [pd.DataFrame({parent_id_column_name: ..., column: ...})] *)
Definition one_to_many_frame (parent_id_column_name column : string)
    (pairs : list (cell * string)) : frame :=
  Frame None
        (if bool_decide (parent_id_column_name = column) then [column]
         else [parent_id_column_name; column])
        (Pd.range_index 0
           ((fun pv => <[column := Str pv.2]> (<[parent_id_column_name := pv.1]> ∅)) <$> pairs)).

(** The [chunksize] both readers are given. *)
Definition chunksize : Z := 1000000.

Definition import_one_to_many (file_path : string) (column_index : option nat)
    (parent_table_name column_in_one2many_table : string) : M unit :=
  f ← open_file file_path;
  match column_index with
  | None => raise "ValueError"
  | Some column_index =>
      let label := pretty column_index in
      chunks ← lift (Pd.read_column_chunks column_index chunksize (data f));
      for_each chunks
        (fun chunk =>
           pairs ← lift (one_to_many_chunk label chunk);
           let parent_id_column_name := parent_table_name +:+ "__id" in
           let o2m_table_name :=
             TABLE_PREFIX cfg +:+ parent_table_name +:+ "__" +:+ column_in_one2many_table in
           to_sql o2m_table_name false
                  (one_to_many_frame parent_id_column_name column_in_one2many_table pairs))
  end.

(** The foreign-key block of [import_table_in_db] for one domain, given
    the frame [self.mapper[domain]]. *)
Definition join_domain (domain_id : string) (df chunk : frame) : result frame :=
  chunk ← Pd.merge_left chunk df domain_id;
  Pd.del_column domain_id chunk.

(** [self.mapper[domain]] *)
Definition mapper_of (domain : string) : M frame :=
  m ← mapper;
  match m !! domain with
  | Some df => mret df
  | None => raise "KeyError"
  end.

(** The fix-up that opens the body of [for chunk in chunks] of
    [import_table_in_db]. *)
Definition exposure_event_fix (table_name : string) (chunk : frame) : result frame :=
  if bool_decide (table_name = "exposure_event")
  then Pd.prepend_column "MESH:" "disease_id" chunk
  else Ok chunk.

(** The [if table_name not in table_conf.domains_to_map] block of that
    body. *)
Definition substitute_foreign_keys (column_names_in_db : list string)
    (table_name : string) (chunk : frame) : M frame :=
  if negb (bool_decide (table_name ∈ domains_to_map cfg))
  then for_fold (domains_to_map cfg)
         (fun chunk domain =>
            let domain_id := domain +:+ "_id" in
            if bool_decide (domain_id ∈ column_names_in_db)
            then df ← mapper_of domain;
                 lift (join_domain domain_id df chunk)
            else mret chunk)
         chunk
  else mret chunk.

(** The body of [for chunk in chunks] of [import_table_in_db]. *)
Definition import_chunk (column_names_in_db : list string) (table_name : string)
    (chunk : frame) : M unit :=
  chunk ← lift (exposure_event_fix table_name chunk);
  chunk ← lift (Pd.set_index_plus_one "id" chunk);
  chunk ← substitute_foreign_keys column_names_in_db table_name chunk;
  chunk ← lift (Pd.set_index "id" chunk);
  let table_with_prefix := TABLE_PREFIX cfg +:+ table_name in
  to_sql table_with_prefix true chunk.

Definition import_table_in_db (file_path : string) (use_columns_with_index : list nat)
    (column_names_in_db : list string) (table_name : string) : M unit :=
  f ← open_file file_path;
  chunks ← lift (Pd.read_table_chunks use_columns_with_index column_names_in_db
                                      chunksize (data f));
  for_each chunks (import_chunk column_names_in_db table_name).

Definition import_table (table : Table) : M unit :=
  let file_path := path_join (PYCTD_DATA_DIR cfg) (file_name table) in
  _ ← log_info ("import CTD from file path " +:+ file_path +:+ " data into table " +:+ name table);
  r ← get_index_and_columns_order (columns_in_file_expected table) (columns_dict table) file_path;
  let '(use_columns_with_index, column_names_in_db) := r in
  _ ← import_table_in_db file_path use_columns_with_index column_names_in_db (name table);
  for_each (one_to_many table)
    (fun o2m =>
       let '(column_in_file, column_in_one2many_table) := o2m in
       o2m_column_index ← get_index_of_column column_in_file file_path;
       import_one_to_many file_path o2m_column_index (name table) column_in_one2many_table).

Definition import_tables (only_tables exclude_tables : list string) : M unit :=
  for_each self_tables
    (fun table =>
       if (negb (bool_decide (only_tables = [])) && negb (bool_decide (name table ∈ only_tables)))
          || bool_decide (name table ∈ exclude_tables)
       then mret tt
       else import_table table).

(** [BaseDbManager.create_tables] as [db_import] calls it, with the
    default [checkfirst=True], under which [create_all] leaves the
    tables that exist as they are. *)
Definition create_tables : M unit :=
  _ ← log_info "create tables";
  _ ← modify (fun w => World (fs w) (web w)
                 (foldr (fun t d => match d !! t with Some _ => d | None => <[t := []]> d end)
                        (db w) (model_tables cfg))
                 (log w) (mapper_cache w) (trace w));
  emit CreateAll.

(** [BaseDbManager.drop_tables] *)
Definition drop_tables : M unit :=
  _ ← log_info "drop tables";
  _ ← modify (fun w => World (fs w) (web w)
                 (foldr (fun t d => delete t d) (db w) (model_tables cfg))
                 (log w) (mapper_cache w) (trace w));
  emit DropAll.

Definition get_path_to_file_from_url (url : string) : string :=
  let file_name := default "" (last (PyStr.split "/" (urlparse_path cfg url))) in
  path_join (PYCTD_DATA_DIR cfg) file_name.

(** [urllib.request.urlretrieve(url, file_path)] *)
Definition urlretrieve (url file_path : string) : M unit := fun w =>
  match web w !! url with
  | Some f =>
      (Ok tt, World (<[file_path := f]> (fs w)) (web w) (db w) (log w)
                    (mapper_cache w) (trace w ++ [UrlRetrieve url file_path]))
  | None => (Raise "URLError", w)
  end.

Definition download_urls (urls : list string) (force_download : bool) : M unit :=
  for_each urls
    (fun url =>
       let file_path := get_path_to_file_from_url url in
       exists_ ← gets (fun w => bool_decide (is_Some (fs w !! file_path)));
       if force_download || negb exists_
       then _ ← log_info ("download " +:+ file_path); urlretrieve url file_path
       else mret tt).

Definition db_import (urls_arg : option (list string)) (force_download : bool) : M unit :=
  let urls := match urls_arg with None => urls cfg | Some urls => urls end in
  _ ← log_info "Update CTD database";
  _ ← drop_tables;
  _ ← download_urls urls force_download;
  _ ← create_tables;
  import_tables [] [].

End DbManager.

(** * Vocabulary of the properties *)

(** Whether a text starts with a blank. *)
Definition head_space (s : string) : bool :=
  match s with
  | String c _ => PyStr.isspace c
  | EmptyString => false
  end.

(** The label of a row as an integer label plus one. *)
Definition label_succ (v : cell) : cell := default NaN (succ_label v).

(** The row the mapper keeps for the file line [line] at ordinal [i]. *)
Definition mapper_row (domain col : string) (k : nat) (i : nat) (line : list cell) : cell * Pd.row :=
  let v := default NaN (line !! k) in
  let keyed : Pd.row :=
    if bool_decide (domain = "chemical")
    then <[col := chemical_key v]> {[ col := v ]}
    else {[ col := v ]} in
  (Int (Z.of_nat i), <[domain +:+ "__id" := Int (Z.of_nat i + 1)]> keyed).

(** The reading of C1 under which every natural id has one surrogate id:
    rows with the same natural id carry the same surrogate id. *)
Definition one_surrogate_per_natural_id (col sid : string) (df : frame) : Prop :=
  forall (i j : nat) (ri rj : cell * Pd.row),
    rows df !! i = Some ri -> rows df !! j = Some rj ->
    Pd.get col ri.2 = Pd.get col rj.2 -> Pd.get sid ri.2 = Pd.get sid rj.2.

(** A file whose header names the columns [a] and [b]. *)
Definition two_column_file : ctd_file :=
  CtdFile ["# Fields:"; "# a" +:+ String "009" "b"; "1" +:+ String "009" "2"]
          [[Str "1"; Str "2"]].

(** A world with that file and nothing else. *)
Definition two_column_world : world :=
  World {[ "f" := two_column_file ]} ∅ ∅ [] ∅ [].

(** [emits P m]: whatever the world and whether or not [m] raises, [m]
    only adds operations to the trace, and all of them satisfy [P]. *)
Definition emits {A : Type} (P : effect -> Prop) (m : M A) : Prop :=
  forall w : world, exists evs : list effect,
    trace (m w).2 = trace w ++ evs /\ Forall P evs.

(** The operations of the download step and of the load step. *)
Definition is_download (e : effect) : Prop :=
  match e with UrlRetrieve _ _ => True | _ => False end.

Definition is_load (e : effect) : Prop :=
  match e with ToSql _ _ => True | _ => False end.

(** A configuration with one URL and no table. *)
Definition one_url_config : config :=
  Config [] [] "" ["http://ctdbase.org/u.tsv"] "data" [] (fun _ => "/reports/u.tsv").

(** A world in which that URL can be fetched and no file is there yet. *)
Definition one_url_world : world :=
  World ∅ {[ "http://ctdbase.org/u.tsv" := CtdFile [] [] ]} ∅ [] ∅ [].

(** A row labelled by an integer, as the reader labels them. *)
Definition int_label {A : Type} (ir : cell * A) : Prop := exists z : Z, ir.1 = Int z.

(** The children of one row of the file, in the words of the
    specification: none for a row whose value is missing, else one per
    piece between pipes, each piece trimmed, under the parent key
    (row label plus one). *)
Definition children (label : string) (ir : cell * Pd.row) : list (cell * string) :=
  match Pd.get label ir.2 with
  | NaN => []
  | v => (fun piece => (label_succ ir.1, PyStr.strip piece)) <$> PyStr.split "|" (py_str v)
  end.

(** What the fix-up does to one row. *)
Definition prefixed (ir ir' : cell * Pd.row) : Prop :=
  ir'.1 = ir.1 /\
  (forall c : string, c <> "disease_id" -> ir'.2 !! c = ir.2 !! c) /\
  (forall s : string, Pd.get "disease_id" ir.2 = Str s ->
     Pd.get "disease_id" ir'.2 = Str ("MESH:" +:+ s)) /\
  (Pd.get "disease_id" ir.2 = NaN -> Pd.get "disease_id" ir'.2 = NaN).

(** A configuration with the one domain [disease], its mapping already
    cached, and a chunk that names a disease without the prefix. *)
Definition disease_config : config :=
  Config [] ["disease"] "" [] "data" [] (fun url => url).

Definition disease_world : world :=
  World ∅ ∅ ∅ []
        {[ "disease" :=
             Frame None ["disease_id"; "disease__id"]
                   [(Int 0, <["disease__id" := Int 1]>
                              {[ "disease_id" := Str "MESH:D000123" ]})] ]}
        [].

Definition disease_chunk : frame :=
  Frame None ["disease_id"] [(Int 0, {[ "disease_id" := Str "D000123" ]})].







(** Whether the character [c] occurs in [s]. *)
Fixpoint occurs (c : ascii) (s : string) : bool :=
  match s with
  | EmptyString => false
  | String a s' => Ascii.eqb a c || occurs c s'
  end.

(** A line that is not the [Fields] marker, a line the scan skips after
    the marker, and the names a header line holds. *)
Definition no_marker (line : string) : Prop :=
  fields_marker (PyStr.strip line) = false.

Definition blank_line (line : string) : Prop :=
  PyStr.strip line = "" \/ PyStr.strip line = "#".

Definition header_names (line : string) : list string :=
  PyStr.strip <$> PyStr.split "009" (PyStr.drop 1 (PyStr.strip line)).

(** A file without the [Fields] marker, alone in a world. *)
Definition headerless_file : ctd_file :=
  CtdFile ["# a comment"; "1" +:+ String "009" "2"] [[Str "1"; Str "2"]].

Definition headerless_world : world :=
  World {[ "f" := headerless_file ]} ∅ ∅ [] ∅ [].

(** What [get_index_of_column] answers for [column] over the header
    [header]: the first position that holds it, or nothing when no
    position does. *)
Definition first_position (column : string) (header : list string)
    (r : option nat) : Prop :=
  match r with
  | Some k => header !! k = Some column /\
              forall j : nat, (j < k)%nat -> header !! j <> Some column
  | None => column ∉ header
  end.

(** Whether [import_tables] imports the table named [n]. *)
Definition selected (only_tables exclude_tables : list string) (n : string) : Prop :=
  (only_tables = [] \/ n ∈ only_tables) /\ n ∉ exclude_tables.

#[global] Instance selected_dec (only_tables exclude_tables : list string) (n : string) :
  Decision (selected only_tables exclude_tables n).
Proof. unfold selected. apply _. Defined.

(** A configuration with two URLs and a world in which the file of the
    first is there already and only the second can be fetched. *)
Definition two_url_config : config :=
  Config [] [] "" ["http://ctdbase.org/a.tsv"; "http://ctdbase.org/b.tsv"] "data" []
         (fun url => PyStr.drop 18 url).

Definition two_url_world : world :=
  World {[ "data/a.tsv" := CtdFile ["old"] [] ]}
        {[ "http://ctdbase.org/b.tsv" := CtdFile ["new b"] [] ]}
        ∅ [] ∅ [].

(** One turn of the loop of [download_urls]. *)
Definition download_one (cfg : config) (force_download : bool) (url : string) : M unit :=
  let file_path := get_path_to_file_from_url cfg url in
  exists_ ← gets (fun w => bool_decide (is_Some (fs w !! file_path)));
  if force_download || negb exists_
  then _ ← log_info ("download " +:+ file_path); urlretrieve url file_path
  else mret tt.

(** [db_grows w w']: every table of [w] is in [w'] with the rows it had,
    in the same order, possibly followed by more. *)
Definition db_grows (w w' : world) : Prop :=
  forall (t : string) (rs : list Pd.row),
    db w !! t = Some rs -> exists more, db w' !! t = Some (rs ++ more).

(** [append_only m]: whatever the world and whether or not [m] raises,
    [m] only appends rows to the database and leaves the files and the
    network as they are. *)
Definition append_only {A : Type} (m : M A) : Prop :=
  forall w : world,
    db_grows w (m w).2 /\ fs (m w).2 = fs w /\ web (m w).2 = web w.

(** A configuration with the one table and domain [gene], and a world
    that holds its file: three genes, the second without synonyms. *)
Definition gene_config : config :=
  Config [("gene", TableConf [("GeneID", "gene_id"); ("Synonyms", "synonyms")]
                             "genes.tsv" (Some [("Synonyms", "synonym")])
                             (Some ("GeneID", "gene_id")))]
         ["gene"] "ctd_" [] "data" ["ctd_gene"] (fun url => url).

Definition gene_file : ctd_file :=
  CtdFile ["# Fields:";
           "# GeneID" +:+ String "009" "Synonyms";
           "#";
           "A1" +:+ String "009" "x|y";
           "B2" +:+ String "009" "";
           "C3" +:+ String "009" "z"]
          [[Str "A1"; Str "x|y"]; [Str "B2"; NaN]; [Str "C3"; Str "z"]].

Definition gene_world : world :=
  World {[ "data/genes.tsv" := gene_file ]} ∅ ∅ [] ∅ [].

(** The row the loader writes for a row of a chunk: the values read,
    and the key, label plus one, in [id]. *)
Definition loader_row (ir : cell * Pd.row) : Pd.row :=
  <["id" := label_succ ir.1]> ir.2.

(** The world after [sent] has been appended to the table [name]. *)
Definition written (name : string) (sent : list Pd.row) (w : world) : world :=
  World (fs w) (web w)
        (<[name := default [] (db w !! name) ++ sent]> (db w))
        (log w) (mapper_cache w) (trace w ++ [ToSql name sent]).

(** The row the expander writes for a (parent key, child value) pair. *)
Definition child_row (parent_id_column_name column : string)
    (pv : cell * string) : Pd.row :=
  <[column := Str pv.2]> (<[parent_id_column_name := pv.1]> ∅).

(** How many times the character [c] occurs in [s]. *)
Fixpoint count_char (c : ascii) (s : string) : nat :=
  match s with
  | EmptyString => O
  | String a s' => ((if Ascii.eqb a c then 1 else 0) + count_char c s')%nat
  end.

(** The text the expander splits for a row. *)
Definition entry_text (label : string) (ir : cell * Pd.row) : string :=
  py_str (Pd.get label ir.2).

(** The world after [log.info(msg)]. *)
Definition logged (msg : string) (w : world) : world :=
  World (fs w) (web w) (db w) (log w ++ [LogInfo msg]) (mapper_cache w) (trace w).

(** The line [import_table] logs for a table. *)
Definition import_message (dir : string) (t : Table) : string :=
  "import CTD from file path " +:+ path_join dir (file_name t)
    +:+ " data into table " +:+ name t.

(** The names of the table of a parent and of the table of one of its
    one-to-many columns. *)
Definition main_table (prefix : string) (t : Table) : string := prefix +:+ name t.

Definition child_table (prefix : string) (t : Table) (column : string) : string :=
  prefix +:+ name t +:+ "__" +:+ column.

(** A read plan that fits a file whose lines have [width] cells: some
    column is read, every column read has its name, the positions are
    increasing and within the line, and no name is given twice. *)
Definition plan_fits (usecols : list nat) (names : list string) (width : nat) : Prop :=
  usecols <> [] /\
  length usecols = length names /\
  StronglySorted lt usecols /\
  Forall (fun k => (k < width)%nat) usecols /\
  NoDup names.

(** Data lines that all have [width] cells. *)
Definition rectangular (width : nat) (data : list (list cell)) : Prop :=
  Forall (fun line => length line = width) data.

(** A table ready for its import in the world [w]: a mappable domain
    other than [exposure_event], whose file is [f] with the header
    [header], which has every expected column and every one-to-many
    column; the file has a data line, its data lines have one cell per
    header column, and the read plan the header gives fits it; and the
    tables exist. *)
Definition importable (cfg : config) (t : Table) (w : world) (f : ctd_file)
    (header : list string) : Prop :=
  fs w !! path_join (PYCTD_DATA_DIR cfg) (file_name t) = Some f /\
  column_names_scan false (lines f) = Some header /\
  columns_in_file_expected t ⊆ header /\
  data f <> [] /\
  rectangular (length header) (data f) /\
  plan_fits (index_and_columns (columns_dict t) O header).1
            (index_and_columns (columns_dict t) O header).2 (length header) /\
  name t ∈ domains_to_map cfg /\
  name t <> "exposure_event" /\
  is_Some (db w !! main_table (TABLE_PREFIX cfg) t) /\
  Forall (fun o2m => o2m.1 ∈ header /\
                     is_Some (db w !! child_table (TABLE_PREFIX cfg) t o2m.2))
         (one_to_many t).

(** The gene table of [gene_config], and a world that has the gene file
    and the two empty tables of the gene table. *)
Definition gene_table : Table :=
  Table_init "gene"
    (TableConf [("GeneID", "gene_id"); ("Synonyms", "synonyms")]
               "genes.tsv" (Some [("Synonyms", "synonym")])
               (Some ("GeneID", "gene_id"))).

Definition gene_ready_world : world :=
  World (fs gene_world) ∅ (<["ctd_gene" := []]> {[ "ctd_gene__synonym" := [] ]}) [] ∅ [].

























(** * Properties *)

(** ** Text replacement and trimming *)

Section Replace.

Local Abbreviation R := (PyStr.replace "MESH:" "").

Lemma replace_nil : R "" = "".
Proof. reflexivity. Qed.

Lemma replace_prefix (t : string) : R ("MESH:" +:+ t) = R t.
Proof. reflexivity. Qed.

Lemma replace_cons (c : ascii) (s : string) :
  PyStr.startswith "MESH:" (String c s) = false ->
  R (String c s) = String c (R s).
Proof.
  intros H. unfold PyStr.replace. cbn [PyStr.replace_go]. now rewrite H.
Qed.

Lemma startswith_split (p s : string) :
  PyStr.startswith p s = true -> exists t, s = p +:+ t.
Proof.
  revert s. induction p as [|a p IH]; intros s H.
  - now exists s.
  - destruct s as [|b s]; [discriminate|]. cbn in H.
    destruct (Ascii.eqb_spec a b) as [->|]; [|discriminate].
    destruct (IH s H) as [t ->]. now exists t.
Qed.

Lemma length_app_string (s t : string) :
  String.length (s +:+ t) = (String.length s + String.length t)%nat.
Proof.
  induction s as [|a s IH]; [reflexivity|].
  change (S (String.length (s +:+ t)) = S (String.length s + String.length t)).
  now f_equal.
Qed.

Lemma app_cons_string (c : ascii) (s t : string) :
  String c s +:+ t = String c (s +:+ t).
Proof. reflexivity. Qed.

Lemma app_assoc_string (s t u : string) : (s +:+ t) +:+ u = s +:+ t +:+ u.
Proof.
  induction s as [|a s IH]; [reflexivity|].
  rewrite !app_cons_string. now f_equal.
Qed.

Lemma startswith_cons (a b : ascii) (p s : string) :
  PyStr.startswith (String a p) (String b s)
  = if Ascii.eqb a b then PyStr.startswith p s else false.
Proof. reflexivity. Qed.

(** ['MESH:'] has no proper border: no occurrence starts before another
    one and runs into it. *)
Lemma mesh_no_border (a b : string) :
  PyStr.startswith "MESH:" a = false ->
  a <> "" ->
  PyStr.startswith "MESH:" (a +:+ "MESH:" +:+ b) = false.
Proof.
  intros H Hne.
  destruct a as [|c1 a]; [congruence|].
  rewrite !app_cons_string, startswith_cons in *.
  destruct (Ascii.eqb_spec "M" c1) as [<-|]; [|reflexivity].
  destruct a as [|c2 a]; [reflexivity|].
  rewrite ?app_cons_string, startswith_cons in *.
  destruct (Ascii.eqb_spec "E" c2) as [<-|]; [|reflexivity].
  destruct a as [|c3 a]; [reflexivity|].
  rewrite ?app_cons_string, startswith_cons in *.
  destruct (Ascii.eqb_spec "S" c3) as [<-|]; [|reflexivity].
  destruct a as [|c4 a]; [reflexivity|].
  rewrite ?app_cons_string, startswith_cons in *.
  destruct (Ascii.eqb_spec "H" c4) as [<-|]; [|reflexivity].
  destruct a as [|c5 a]; [reflexivity|].
  rewrite ?app_cons_string, startswith_cons in *.
  destruct (Ascii.eqb_spec ":" c5) as [<-|]; [discriminate|reflexivity].
Qed.

Lemma replace_occurrence_len (n : nat) : forall a b : string,
  (String.length a <= n)%nat ->
  R (a +:+ "MESH:" +:+ b) = R a +:+ R b.
Proof.
  induction n as [|n IH]; intros a b Hlen.
  - destruct a; [apply replace_prefix | cbn in Hlen; lia].
  - destruct a as [|c a]; [apply replace_prefix|].
    destruct (PyStr.startswith "MESH:" (String c a)) eqn:Hs.
    + destruct (startswith_split _ _ Hs) as [t Ht]. rewrite Ht.
      rewrite app_assoc_string, !replace_prefix.
      apply IH. rewrite Ht, length_app_string in Hlen. cbn in Hlen. lia.
    + change (String c a +:+ "MESH:" +:+ b) with (String c (a +:+ "MESH:" +:+ b)).
      rewrite replace_cons.
      * rewrite (replace_cons c a Hs).
        change (String c (R a) +:+ R b) with (String c (R a +:+ R b)).
        f_equal. apply IH. cbn in Hlen. lia.
      * apply (mesh_no_border (String c a) b Hs). discriminate.
Qed.

Lemma replace_occurrence (a b : string) :
  R (a +:+ "MESH:" +:+ b) = R a +:+ R b.
Proof. apply (replace_occurrence_len (String.length a)). lia. Qed.

End Replace.

Section Strip.

Lemma lstrip_head (s : string) : head_space (PyStr.lstrip s) = false.
Proof.
  induction s as [|c s IH]; [reflexivity|].
  cbn [PyStr.lstrip]. destruct (PyStr.isspace c) eqn:E; [exact IH|].
  cbn [head_space]. exact E.
Qed.

Lemma lstrip_id (s : string) : head_space s = false -> PyStr.lstrip s = s.
Proof.
  destruct s as [|c s]; [reflexivity|]. cbn [head_space PyStr.lstrip].
  now intros ->.
Qed.

Lemma rstrip_head (s : string) :
  head_space s = false -> head_space (PyStr.rstrip s) = false.
Proof.
  destruct s as [|c s]; [reflexivity|]. cbn [head_space PyStr.rstrip].
  intros E. destruct (PyStr.rstrip s); [now rewrite E | exact E].
Qed.

Lemma rstrip_idem (s : string) : PyStr.rstrip (PyStr.rstrip s) = PyStr.rstrip s.
Proof.
  induction s as [|c s IH]; [reflexivity|].
  cbn [PyStr.rstrip]. destruct (PyStr.rstrip s) as [|d r] eqn:E.
  - destruct (PyStr.isspace c) eqn:Ec; [reflexivity|].
    cbn [PyStr.rstrip]. now rewrite Ec.
  - change (PyStr.rstrip (String c (String d r)))
      with (match PyStr.rstrip (String d r) with
            | EmptyString => if PyStr.isspace c then EmptyString else String c EmptyString
            | String a b => String c (String a b)
            end).
    now rewrite IH.
Qed.

Lemma strip_idem (s : string) : PyStr.strip (PyStr.strip s) = PyStr.strip s.
Proof.
  unfold PyStr.strip.
  rewrite (lstrip_id (PyStr.rstrip (PyStr.lstrip s))).
  - apply rstrip_idem.
  - apply rstrip_head, lstrip_head.
Qed.

End Strip.

(** ** Frames read from a file *)

Section Frames.

Lemma range_index_length {A : Type} (start : Z) (l : list A) :
  length (Pd.range_index start l) = length l.
Proof. revert start. induction l as [|x l IH]; intros start; cbn; [reflexivity | now rewrite IH]. Qed.

Lemma range_index_lookup {A : Type} (start : Z) (l : list A) (i : nat) :
  Pd.range_index start l !! i = (fun x => (Int (start + Z.of_nat i), x)) <$> l !! i.
Proof.
  revert start i. induction l as [|x l IH]; intros start i; [now destruct i|].
  destruct i as [|i]; cbn.
  - now rewrite Z.add_0_r.
  - rewrite IH. destruct (l !! i); cbn; [|reflexivity].
    do 3 f_equal. lia.
Qed.

Lemma range_index_fmap {A B : Type} (f : A -> B) (start : Z) (l : list A) :
  Pd.range_index start (f <$> l) = (fun ix => (ix.1, f ix.2)) <$> Pd.range_index start l.
Proof. revert start. induction l as [|x l IH]; intros start; cbn; [reflexivity | now rewrite IH]. Qed.

Lemma assign_index_plus_one_ok (c : string) (l l' : list (cell * Pd.row)) :
  Pd.assign_index_plus_one c l = Ok l' ->
  l' = (fun ir => (ir.1, <[c := label_succ ir.1]> ir.2)) <$> l.
Proof.
  revert l'. induction l as [|[i r] l IH]; intros l' H; cbn in H.
  - now inversion H.
  - destruct (succ_label i) as [j|] eqn:Ei; [|discriminate].
    destruct (Pd.assign_index_plus_one c l) as [l''|]; cbn in H; [|discriminate].
    inversion H; subst. cbn. unfold label_succ at 1. rewrite Ei. cbn.
    f_equal. now apply IH.
Qed.

Lemma assign_index_plus_one_range (c : string) (start : Z) (l : list Pd.row) :
  exists l', Pd.assign_index_plus_one c (Pd.range_index start l) = Ok l'.
Proof.
  revert start. induction l as [|r l IH]; intros start; cbn; [eauto|].
  destruct (IH (start + 1)) as [l' ->]. cbn. eauto.
Qed.

Lemma select_single (k : nat) (col : string) (line : list cell) :
  Pd.select [k] [col] line = {[ col := default NaN (line !! k) ]}.
Proof. reflexivity. Qed.

Lemma get_column_names_from_file_ok (file_path : string) (w : world) (f : ctd_file) :
  fs w !! file_path = Some f ->
  get_column_names_from_file file_path w = (Ok (column_names_scan false (lines f)), w).
Proof.
  intros H. unfold get_column_names_from_file, mbind, M_bind, open_file.
  now rewrite H.
Qed.

End Frames.

(** ** The surrogate-key mapper *)

Section Mapper.

Lemma mapper_frame_rows (domain col : string) (k : nat) (data : list (list cell)) (df : frame) :
  mapper_frame domain col k data = Ok df ->
  length (rows df) = length data /\
  forall (i : nat) (line : list cell), data !! i = Some line ->
    rows df !! i = Some (mapper_row domain col k i line).
Proof.
  unfold mapper_frame, Pd.set_index_plus_one, mapper_row. intros H.
  case_bool_decide as Hd.
  - unfold strip_mesh_column in H.
    destruct (_ || _); cbn in H; [|discriminate].
    match type of H with
    | context [Pd.assign_index_plus_one ?c ?l] =>
        destruct (Pd.assign_index_plus_one c l) as [l'|] eqn:E; cbn in H; [|discriminate]
    end.
    inversion H; subst df; clear H. cbn [rows].
    apply assign_index_plus_one_ok in E. subst l'.
    split.
    + now rewrite !length_fmap, range_index_length, length_fmap.
    + intros i line Hi.
      rewrite !list_lookup_fmap, range_index_lookup, list_lookup_fmap, Hi.
      cbn [fmap option_fmap option_map fst snd].
      rewrite select_single. unfold Pd.get, label_succ.
      rewrite lookup_singleton_eq, Z.add_0_l. reflexivity.
  - cbn in H.
    match type of H with
    | context [Pd.assign_index_plus_one ?c ?l] =>
        destruct (Pd.assign_index_plus_one c l) as [l'|] eqn:E; cbn in H; [|discriminate]
    end.
    inversion H; subst df; clear H. cbn [rows].
    apply assign_index_plus_one_ok in E. subst l'.
    split.
    + now rewrite !length_fmap, range_index_length, length_fmap.
    + intros i line Hi.
      rewrite !list_lookup_fmap, range_index_lookup, list_lookup_fmap, Hi.
      cbn [fmap option_fmap option_map fst snd].
      rewrite select_single, Z.add_0_l. reflexivity.
Qed.

(** Outside the chemical domain the mapper never raises. *)
Lemma mapper_frame_total (domain col : string) (k : nat) (data : list (list cell)) :
  domain <> "chemical" -> exists df, mapper_frame domain col k data = Ok df.
Proof.
  intros Hd. unfold mapper_frame, Pd.set_index_plus_one.
  rewrite bool_decide_eq_false_2 by exact Hd. cbn.
  destruct (assign_index_plus_one_range (domain +:+ "__id") 0
              (Pd.select [k] [col] <$> data)) as [l' ->].
  cbn. eauto.
Qed.


(** The frame the mapper caches has the natural-id column and the
    surrogate-id column. *)
Lemma mapper_frame_cols (domain col : string) (k : nat) (data : list (list cell))
    (df : frame) :
  col <> domain +:+ "__id" ->
  mapper_frame domain col k data = Ok df ->
  cols df = [col; domain +:+ "__id"].
Proof.
  unfold mapper_frame, Pd.set_index_plus_one. intros Hne H.
  case_bool_decide as Hd.
  - unfold strip_mesh_column in H. destruct (_ || _); cbn in H; [|discriminate].
    match type of H with
    | context [Pd.assign_index_plus_one ?c ?l] =>
        destruct (Pd.assign_index_plus_one c l) as [l'|]; cbn in H; [|discriminate]
    end.
    inversion H. cbn.
    rewrite bool_decide_eq_false_2; [reflexivity|].
    intros E. apply list_elem_of_singleton in E. congruence.
  - cbn in H.
    match type of H with
    | context [Pd.assign_index_plus_one ?c ?l] =>
        destruct (Pd.assign_index_plus_one c l) as [l'|]; cbn in H; [|discriminate]
    end.
    inversion H. cbn.
    rewrite bool_decide_eq_false_2; [reflexivity|].
    intros E. apply list_elem_of_singleton in E. congruence.
Qed.

(** One turn of the loop of the [mapper] property caches the frame
    [mapper_frame] builds from the domain's file. *)
Lemma mapper_domain_run (cfg : config) (domain : string) (tab_conf : table_conf)
    (col_name_in_file col_name_in_db : string) (w : world) (f : ctd_file)
    (header : list string) (k : nat) (df : frame) :
  (list_to_map (tables cfg) : gmap string table_conf) !! domain = Some tab_conf ->
  conf_domain_id_column tab_conf = Some (col_name_in_file, col_name_in_db) ->
  fs w !! path_join (PYCTD_DATA_DIR cfg) (conf_file_name tab_conf) = Some f ->
  column_names_scan false (lines f) = Some header ->
  col_name_in_file ∈ header ->
  list_index col_name_in_file header = Some k ->
  mapper_frame domain col_name_in_db k (data f) = Ok df ->
  mapper_domain cfg domain w
  = (Ok tt, World (fs w) (web w) (db w) (log w)
                  (<[domain := df]> (mapper_cache w)) (trace w)).
Proof.
  intros Ht Hc Hf Hh Hin Hk Hdf. unfold mapper_domain. rewrite Ht, Hc.
  unfold mbind at 1. unfold M_bind.
  unfold get_index_of_column. unfold mbind at 1. unfold M_bind.
  rewrite (get_column_names_from_file_ok _ _ _ Hf), Hh.
  rewrite (bool_decide_eq_true_2 _ Hin). unfold mret, M_ret. rewrite Hk.
  unfold mbind at 1. unfold M_bind. unfold open_file. rewrite Hf.
  unfold mbind, M_bind, lift. rewrite Hdf. reflexivity.
Qed.

End Mapper.

Section MapperClaims.

(** C1 (as amended): for every domain, the mapping built from a file with
    [N] data lines has [N] rows; the row of the line at 0-based ordinal
    [i] carries the surrogate id [i + 1]; the surrogate ids, in file
    order, are [1..N]; no surrogate id is given to two rows, hence rows
    with distinct natural ids never share a surrogate id.  A natural id
    receives one surrogate id per line it occurs on. *)
Theorem mapper_surrogate_ids (domain col : string) (k : nat)
    (data : list (list cell)) (df : frame) :
  mapper_frame domain col k data = Ok df ->
  length (rows df) = length data /\
  (forall (i : nat) (line : list cell), data !! i = Some line ->
     exists r, rows df !! i = Some (Int (Z.of_nat i), r) /\
               Pd.get (domain +:+ "__id") r = Int (Z.of_nat i + 1)) /\
  (fun ir => Pd.get (domain +:+ "__id") ir.2) <$> rows df
    = (fun n => Int (Z.of_nat n)) <$> seq 1 (length data) /\
  (forall (i j : nat) (ri rj : cell * Pd.row),
     rows df !! i = Some ri -> rows df !! j = Some rj ->
     Pd.get (domain +:+ "__id") ri.2 = Pd.get (domain +:+ "__id") rj.2 -> i = j) /\
  (forall (i j : nat) (ri rj : cell * Pd.row),
     rows df !! i = Some ri -> rows df !! j = Some rj ->
     Pd.get col ri.2 <> Pd.get col rj.2 ->
     Pd.get (domain +:+ "__id") ri.2 <> Pd.get (domain +:+ "__id") rj.2).
Proof.
  intros H. destruct (mapper_frame_rows _ _ _ _ _ H) as [Hlen Hrow].
  assert (Hsid : forall (i : nat) (ri : cell * Pd.row), rows df !! i = Some ri ->
            Pd.get (domain +:+ "__id") ri.2 = Int (Z.of_nat i + 1)).
  { intros i ri Hi.
    destruct (data !! i) as [line|] eqn:Hd.
    - rewrite (Hrow i line Hd) in Hi. inversion Hi; subst ri.
      unfold mapper_row, Pd.get. cbn [snd]. now rewrite lookup_insert_eq.
    - apply lookup_ge_None in Hd. apply lookup_lt_Some in Hi. lia. }
  assert (Hinj : forall (i j : nat) (ri rj : cell * Pd.row),
            rows df !! i = Some ri -> rows df !! j = Some rj ->
            Pd.get (domain +:+ "__id") ri.2 = Pd.get (domain +:+ "__id") rj.2 -> i = j).
  { intros i j ri rj Hi Hj E.
    rewrite (Hsid i ri Hi), (Hsid j rj Hj) in E. inversion E. lia. }
  split; [exact Hlen|]. split; [|split; [|split]].
  - intros i line Hd. rewrite (Hrow i line Hd). unfold mapper_row.
    eexists. split; [reflexivity|]. unfold Pd.get. now rewrite lookup_insert_eq.
  - apply list_eq. intros i. rewrite !list_lookup_fmap.
    destruct (rows df !! i) as [ri|] eqn:Hi.
    + pose proof (lookup_lt_Some _ _ _ Hi) as Hlt.
      rewrite lookup_seq_lt by lia. cbn. rewrite (Hsid i ri Hi).
      do 2 f_equal. lia.
    + apply lookup_ge_None in Hi. rewrite lookup_seq_ge by lia. reflexivity.
  - exact Hinj.
  - intros i j ri rj Hi Hj Hne E. apply Hne.
    assert (i = j) by eauto. subst j. rewrite Hi in Hj. now inversion Hj.
Qed.

(** A run of [mapper_surrogate_ids] on a two-line gene file. *)
Lemma mapper_surrogate_ids_witness :
  let df := Frame None ["gene_id"; "gene__id"]
              [(Int 0, <["gene__id" := Int 1]> {[ "gene_id" := Str "A" ]});
               (Int 1, <["gene__id" := Int 2]> {[ "gene_id" := Str "B" ]})] in
  mapper_frame "gene" "gene_id" 0 [[Str "A"]; [Str "B"]] = Ok df /\
  (fun ir => Pd.get "gene__id" ir.2) <$> rows df = [Int 1; Int 2].
Proof.
  intros df.
  assert (H : mapper_frame "gene" "gene_id" 0 [[Str "A"]; [Str "B"]] = Ok df)
    by (vm_compute; reflexivity).
  split; [exact H|].
  exact (proj1 (proj2 (proj2 (mapper_surrogate_ids "gene" "gene_id" 0 _ df H)))).
Defined.

(** C1, as stated, fails: a natural id that occurs on two lines of the
    file receives two surrogate ids, not a unique one. *)
Lemma mapper_duplicate_natural_id :
  exists df : frame,
    mapper_frame "gene" "gene_id" 0 [[Str "A"]; [Str "A"]] = Ok df /\
    ~ one_surrogate_per_natural_id "gene_id" "gene__id" df.
Proof.
  eexists. split; [vm_compute; reflexivity|].
  intros Hu.
  specialize (Hu 0%nat 1%nat _ _ eq_refl eq_refl).
  assert (E : Int 1 = Int 2) by (apply Hu; vm_compute; reflexivity).
  discriminate E.
Qed.

End MapperClaims.

Section ChemicalKey.

(** C4: in the chemical domain the key of a text value is the value with
    ['MESH:'] replaced by nothing and then trimmed: a value with the
    prefix keys like the value without it, a value ["MESH:" ++ s] with no
    further occurrence keys as the trimmed [s], ["MESH:D000123"] keys as
    ["D000123"], and a key is already trimmed; the mapper stores that
    key for every line of the chemical file and stores the value of the
    file unchanged for every other domain. *)
Theorem chemical_key_strips_prefix :
  (forall s : string,
     chemical_key (Str ("MESH:" +:+ s)) = chemical_key (Str s)) /\
  (forall s : string, PyStr.replace "MESH:" "" s = s ->
     chemical_key (Str ("MESH:" +:+ s)) = Str (PyStr.strip s)) /\
  chemical_key (Str "MESH:D000123") = Str "D000123" /\
  (forall s k : string, chemical_key (Str s) = Str k -> PyStr.strip k = k) /\
  (forall (domain col : string) (k i : nat) (data : list (list cell))
          (df : frame) (line : list cell),
     col <> domain +:+ "__id" ->
     mapper_frame domain col k data = Ok df ->
     data !! i = Some line ->
     exists r, rows df !! i = Some (Int (Z.of_nat i), r) /\
       Pd.get col r =
         if bool_decide (domain = "chemical")
         then chemical_key (default NaN (line !! k))
         else default NaN (line !! k)).
Proof.
  split; [|split; [|split; [|split]]].
  - intros s. unfold chemical_key. now rewrite replace_prefix.
  - intros s Hs. unfold chemical_key. now rewrite replace_prefix, Hs.
  - vm_compute. reflexivity.
  - intros s k H. unfold chemical_key in H. inversion H. apply strip_idem.
  - intros domain col k i data df line Hne H Hd.
    destruct (mapper_frame_rows _ _ _ _ _ H) as [_ Hrow].
    rewrite (Hrow i line Hd). unfold mapper_row.
    eexists. split; [reflexivity|]. unfold Pd.get.
    rewrite lookup_insert_ne by congruence.
    case_bool_decide.
    + now rewrite lookup_insert_eq.
    + now rewrite lookup_singleton_eq.
Qed.

(** A run of [chemical_key_strips_prefix] on a one-line chemical file and
    on the same line in the gene domain. *)
Lemma chemical_key_strips_prefix_witness :
  (exists r, rows (Frame None ["chemical_id"; "chemical__id"]
                     [(Int 0, <["chemical__id" := Int 1]>
                                (<["chemical_id" := Str "D000123"]>
                                   {[ "chemical_id" := Str " MESH:D000123 " ]}))])
               !! 0%nat = Some (Int 0, r) /\
             Pd.get "chemical_id" r = Str "D000123") /\
  (exists r, rows (Frame None ["gene_id"; "gene__id"]
                     [(Int 0, <["gene__id" := Int 1]>
                                {[ "gene_id" := Str " MESH:D000123 " ]})])
               !! 0%nat = Some (Int 0, r) /\
             Pd.get "gene_id" r = Str " MESH:D000123 ") /\
  PyStr.strip "D000123" = "D000123" /\
  chemical_key (Str "MESH:D000123") = Str (PyStr.strip "D000123").
Proof.
  pose proof chemical_key_strips_prefix as (_ & Hfree & _ & Htrim & Hmap).
  split; [|split; [|split]].
  - apply (Hmap "chemical" "chemical_id" 0%nat 0%nat [[Str " MESH:D000123 "]] _
                [Str " MESH:D000123 "]);
      [discriminate | vm_compute; reflexivity | reflexivity].
  - apply (Hmap "gene" "gene_id" 0%nat 0%nat [[Str " MESH:D000123 "]] _
                [Str " MESH:D000123 "]);
      [discriminate | vm_compute; reflexivity | reflexivity].
  - apply (Htrim "MESH:D000123" "D000123"). vm_compute. reflexivity.
  - apply (Hfree "D000123"). vm_compute. reflexivity.
Defined.

(** C10: in the chemical domain every occurrence of ['MESH:'] in a value
    goes, wherever it stands: the key of [a ++ "MESH:" ++ b] is the
    trimmed concatenation of what is left of [a] and of [b], so
    ["XMESH:Y"] is keyed as ["XY"] and not left as it is, also in the
    frame the mapper builds. *)
Theorem chemical_key_removes_every_occurrence :
  (forall a b : string,
     chemical_key (Str (a +:+ "MESH:" +:+ b))
     = Str (PyStr.strip (PyStr.replace "MESH:" "" a +:+ PyStr.replace "MESH:" "" b))) /\
  chemical_key (Str "XMESH:Y") = Str "XY" /\
  chemical_key (Str "XMESH:Y") <> Str "XMESH:Y" /\
  chemical_key (Str "MESH:AMESH:B") = Str "AB" /\
  mapper_frame "chemical" "chemical_id" 0 [[Str "XMESH:Y"]]
    = Ok (Frame None ["chemical_id"; "chemical__id"]
            [(Int 0, <["chemical__id" := Int 1]>
                       (<["chemical_id" := Str "XY"]> {[ "chemical_id" := Str "XMESH:Y" ]}))]).
Proof.
  split; [|split; [|split; [|split]]].
  - intros a b. unfold chemical_key. now rewrite replace_occurrence.
  - vm_compute. reflexivity.
  - vm_compute. discriminate.
  - vm_compute. reflexivity.
  - vm_compute. reflexivity.
Qed.

End ChemicalKey.

(** ** The schema reconciler *)

Section Reconciler.

Lemma index_and_columns_spec (columns_dict : gmap string string) (header : list string) :
  forall n : nat,
    let r := index_and_columns columns_dict n header in
    (forall j : nat, j ∈ r.1 <->
       exists (i : nat) (c : string),
         j = (n + i)%nat /\ header !! i = Some c /\ is_Some (columns_dict !! c)) /\
    StronglySorted lt r.1 /\
    Forall2 (fun (j : nat) (name_in_db : string) =>
               exists (i : nat) (c : string),
                 j = (n + i)%nat /\ header !! i = Some c /\
                 columns_dict !! c = Some name_in_db) r.1 r.2.
Proof.
  induction header as [|column rest IH]; intros n; cbn.
  - split; [|split; constructor].
    intros j. split; [intros Hj; inversion Hj|].
    intros (i & c & _ & Hi & _). now rewrite lookup_nil in Hi.
  - destruct (IH (S n)) as (Hmem & Hsort & Hnames). cbn in Hmem, Hsort, Hnames.
    assert (Hshift : forall j : nat,
              (exists (i : nat) (c : string),
                 j = (S n + i)%nat /\ rest !! i = Some c /\ is_Some (columns_dict !! c)) ->
              exists (i : nat) (c : string),
                 j = (n + i)%nat /\ (column :: rest) !! i = Some c /\
                 is_Some (columns_dict !! c)).
    { intros j (i & c & -> & Hi & Hc). exists (S i), c. split; [lia|]. now split. }
    destruct (columns_dict !! column) as [name_in_db|] eqn:Hcol; cbn.
    + split; [|split].
      * intros j. rewrite elem_of_cons, Hmem. split.
        -- intros [->|H]; [|now apply Hshift].
           exists 0%nat, column. split; [lia|]. split; [reflexivity|]. rewrite Hcol. eauto.
        -- intros (i & c & -> & Hi & Hc). destruct i as [|i].
           ++ left. lia.
           ++ right. exists i, c. split; [lia|]. now split.
      * constructor; [exact Hsort|].
        apply Forall_forall. intros j Hj. apply Hmem in Hj.
        destruct Hj as (i & c & -> & _). lia.
      * constructor.
        -- exists 0%nat, column. split; [lia|]. now split.
        -- eapply Forall2_impl; [exact Hnames|].
           intros j nm (i & c & -> & Hi & Hc). exists (S i), c. split; [lia|]. now split.
    + split; [|split].
      * intros j. rewrite Hmem. split; [apply Hshift|].
        intros (i & c & -> & Hi & Hc). destruct i as [|i].
        -- cbn in Hi. inversion Hi; subst c. rewrite Hcol in Hc. now destruct Hc.
        -- exists i, c. split; [lia|]. now split.
      * exact Hsort.
      * eapply Forall2_impl; [exact Hnames|].
        intros j nm (i & c & -> & Hi & Hc). exists (S i), c. split; [lia|]. now split.
Qed.

(** The keys of [dict(pairs)] are the first components of the pairs. *)
Lemma py_dict_keys (pairs : list (string * string)) (c : string) :
  is_Some (py_dict pairs !! c) <-> c ∈ pairs.*1.
Proof.
  unfold py_dict. rewrite <- elem_of_dom, dom_list_to_map_L, elem_of_list_to_set.
  rewrite fmap_reverse, elem_of_reverse. reflexivity.
Qed.

End Reconciler.

Section ReconcilerClaims.

Example two_column_header :
  column_names_scan false (lines two_column_file) = Some ["a"; "b"].
Proof. vm_compute. reflexivity. Qed.

(** C2 (as amended): when the expected columns are all in the header of
    the file and the keys of the rename map are the expected columns (as
    [Table] builds both from one configuration), the reconciler raises
    nothing, changes nothing, and returns the header positions of
    exactly the expected columns, in increasing order, each paired with
    the destination name the rename map gives its column; a header
    column that is not a key of the rename map has no position in the
    result, and every expected column has one. *)
Theorem reconciler_selects_expected (expected : list string)
    (columns_dict : gmap string string) (file_path : string) (w : world)
    (f : ctd_file) (header : list string) :
  fs w !! file_path = Some f ->
  column_names_scan false (lines f) = Some header ->
  expected ⊆ header ->
  (forall c : string, is_Some (columns_dict !! c) <-> c ∈ expected) ->
  exists (idx : list nat) (names : list string),
    get_index_and_columns_order expected columns_dict file_path w = (Ok (idx, names), w) /\
    (forall j : nat, j ∈ idx <-> exists c, header !! j = Some c /\ c ∈ expected) /\
    StronglySorted lt idx /\
    Forall2 (fun (j : nat) (name_in_db : string) =>
               exists c, header !! j = Some c /\ columns_dict !! c = Some name_in_db)
            idx names /\
    (forall (j : nat) (c : string),
       header !! j = Some c -> columns_dict !! c = None -> j ∉ idx) /\
    (forall c : string, c ∈ expected -> exists j, j ∈ idx /\ header !! j = Some c).
Proof.
  intros Hf Hh Hsub Hkeys.
  destruct (index_and_columns_spec columns_dict header 0) as (Hmem & Hsort & Hnames).
  cbn in Hmem, Hsort, Hnames.
  exists (index_and_columns columns_dict 0 header).1,
         (index_and_columns columns_dict 0 header).2.
  assert (Hmem' : forall j : nat,
            j ∈ (index_and_columns columns_dict 0 header).1 <->
            exists c, header !! j = Some c /\ is_Some (columns_dict !! c)).
  { intros j. rewrite Hmem. split.
    - intros (i & c & -> & Hi & Hc). exists c. now split.
    - intros (c & Hj & Hc). exists j, c. now split. }
  split; [|split; [|split; [|split; [|split]]]].
  - unfold get_index_and_columns_order, mbind, M_bind.
    rewrite (get_column_names_from_file_ok _ _ _ Hf), Hh.
    rewrite bool_decide_eq_true_2 by exact Hsub. cbn.
    unfold mret, M_ret. now destruct (index_and_columns columns_dict 0 header).
  - intros j. rewrite Hmem'. split; intros (c & Hj & Hc); exists c; split; trivial;
      now apply Hkeys.
  - exact Hsort.
  - eapply Forall2_impl; [exact Hnames|].
    intros j nm (i & c & -> & Hi & Hc). exists c. now split.
  - intros j c Hj Hnone Hin. apply Hmem' in Hin. destruct Hin as (c' & Hj' & Hc').
    rewrite Hj in Hj'. inversion Hj'; subst c'. rewrite Hnone in Hc'. now destruct Hc'.
  - intros c Hc. pose proof (Hsub c Hc) as Hin.
    apply list_elem_of_lookup in Hin. destruct Hin as [j Hj].
    exists j. split; [|exact Hj]. apply Hmem'. exists c. split; [exact Hj|]. now apply Hkeys.
Qed.

(** The rename map and the expected columns [Table.__init__] builds have
    the same columns. *)
Lemma Table_init_keys (name : string) (conf : table_conf) (c : string) :
  is_Some (columns_dict (Table_init name conf) !! c)
  <-> c ∈ columns_in_file_expected (Table_init name conf).
Proof. apply py_dict_keys. Qed.

(** A run of [reconciler_selects_expected]: a table that expects the
    column [b] of a file with the columns [a] and [b]. *)
Lemma reconciler_selects_expected_witness :
  let t := Table_init "t" (TableConf [("b", "b_db")] "f" None None) in
  exists (idx : list nat) (names : list string),
    get_index_and_columns_order (columns_in_file_expected t) (columns_dict t) "f"
      two_column_world = (Ok (idx, names), two_column_world) /\
    (forall j : nat, j ∈ idx <->
       exists c, ["a"; "b"] !! j = Some c /\ c ∈ columns_in_file_expected t).
Proof.
  intros t.
  destruct (reconciler_selects_expected (columns_in_file_expected t) (columns_dict t)
              "f" two_column_world two_column_file ["a"; "b"])
    as (idx & names & Hrun & Hmem & _).
  - reflexivity.
  - vm_compute. reflexivity.
  - intros c Hc. apply list_elem_of_singleton in Hc. subst c. right. left.
  - intros c. apply Table_init_keys.
  - exists idx, names. split; [exact Hrun | exact Hmem].
Defined.

(** C2, as stated, fails: with the expected column [a], a rename map for
    [a] and [b] and the header [a], [b], the reconciler also returns the
    position of [b], which is not an expected column. *)
Lemma reconciler_follows_rename_map :
  let expected := ["a"] in
  let columns_dict : gmap string string := {[ "a" := "a_db"; "b" := "b_db" ]} in
  expected ⊆ ["a"; "b"] /\
  column_names_scan false (lines two_column_file) = Some ["a"; "b"] /\
  get_index_and_columns_order expected columns_dict "f" two_column_world
    = (Ok ([0%nat; 1%nat], ["a_db"; "b_db"]), two_column_world) /\
  ["a"; "b"] !! 1%nat = Some "b" /\ "b" ∉ expected.
Proof.
  cbn zeta. split.
  { intros c Hc. apply list_elem_of_singleton in Hc. subst c. left. }
  split; [vm_compute; reflexivity|].
  split; [vm_compute; reflexivity|]. split; [reflexivity|].
  intros H. apply list_elem_of_singleton in H. discriminate H.
Qed.


End ReconcilerClaims.

(** ** The order of the operations sent out *)

Section Effects.

Lemma emits_weaken {A : Type} (P Q : effect -> Prop) (m : M A) :
  (forall e, P e -> Q e) -> emits P m -> emits Q m.
Proof.
  intros HPQ Hm w. destruct (Hm w) as (evs & E & HP).
  exists evs. split; [exact E|]. eapply Forall_impl; eauto.
Qed.

Lemma emits_same {A : Type} (P : effect -> Prop) (m : M A) :
  (forall w, trace (m w).2 = trace w) -> emits P m.
Proof. intros H w. exists []. rewrite H, app_nil_r. split; [reflexivity | constructor]. Qed.

Lemma emits_ret {A : Type} (P : effect -> Prop) (a : A) : emits P (mret a).
Proof. now apply emits_same. Qed.

Lemma emits_lift {A : Type} (P : effect -> Prop) (r : result A) : emits P (lift r).
Proof. now apply emits_same. Qed.

Lemma emits_raise {A : Type} (P : effect -> Prop) (e : string) : emits P (raise (A:=A) e).
Proof. now apply emits_same. Qed.

Lemma emits_gets {A : Type} (P : effect -> Prop) (f : world -> A) : emits P (gets f).
Proof. now apply emits_same. Qed.

Lemma emits_bind {A B : Type} (P : effect -> Prop) (m : M A) (k : A -> M B) :
  emits P m -> (forall a, emits P (k a)) -> emits P (m ≫= k).
Proof.
  intros Hm Hk w. unfold mbind, M_bind.
  destruct (Hm w) as (evs & E & HP).
  destruct (m w) as [[a|e] w'] eqn:Em; cbn in E.
  - destruct (Hk a w') as (evs' & E' & HP').
    exists (evs ++ evs'). rewrite E', E, app_assoc. split; [reflexivity|].
    now apply Forall_app.
  - exists evs. now split.
Qed.

Lemma emits_for_each {A : Type} (P : effect -> Prop) (l : list A) (body : A -> M unit) :
  (forall x, emits P (body x)) -> emits P (for_each l body).
Proof.
  intros Hb. induction l as [|x l IH]; cbn [for_each].
  - apply emits_ret.
  - apply emits_bind; [apply Hb | intros _; exact IH].
Qed.

Lemma emits_for_fold {A B : Type} (P : effect -> Prop) (l : list A)
    (body : B -> A -> M B) (acc : B) :
  (forall b x, emits P (body b x)) -> emits P (for_fold l body acc).
Proof.
  intros Hb. revert acc. induction l as [|x l IH]; intros acc; cbn [for_fold].
  - apply emits_ret.
  - apply emits_bind; [apply Hb | intros acc'; apply IH].
Qed.

Lemma emits_log_info (P : effect -> Prop) (msg : string) : emits P (log_info msg).
Proof. now apply emits_same. Qed.

Lemma emits_emit (P : effect -> Prop) (e : effect) : P e -> emits P (emit e).
Proof. intros He w. exists [e]. split; [reflexivity|]. now constructor. Qed.

Lemma emits_to_sql (name : string) (with_index : bool) (f : frame) :
  emits is_load (to_sql name with_index f).
Proof.
  unfold to_sql. apply emits_bind; [now apply emits_same|].
  intros _. now apply emits_emit.
Qed.

Lemma emits_open_file (P : effect -> Prop) (file_path : string) :
  emits P (open_file file_path).
Proof. apply emits_same. intros w. unfold open_file. now destruct (fs w !! file_path). Qed.

End Effects.

Section EffectsOfImport.

Variable cfg : config.

Create HintDb emits discriminated.

#[local] Hint Resolve emits_ret emits_lift emits_raise emits_gets emits_log_info
  emits_open_file emits_to_sql : emits.

Ltac emits_step :=
  match goal with
  | |- emits _ (_ ≫= _) => apply emits_bind; [|intros ?]
  | |- emits _ (for_each _ _) => apply emits_for_each; intros ?
  | |- emits _ (for_fold _ _ _) => apply emits_for_fold; intros ? ?
  | |- emits _ (match ?x with _ => _ end) => destruct x
  | |- emits _ (if ?b then _ else _) => destruct b
  | |- emits _ (let '(_, _) := ?x in _) => destruct x
  | |- emits _ _ => solve [eauto with emits]
  end.

Lemma emits_get_column_names (P : effect -> Prop) (file_path : string) :
  emits P (get_column_names_from_file file_path).
Proof. unfold get_column_names_from_file. repeat emits_step. Qed.

Lemma emits_get_index_of_column (P : effect -> Prop) (column file_path : string) :
  emits P (get_index_of_column column file_path).
Proof.
  unfold get_index_of_column.
  apply emits_bind; [apply emits_get_column_names | intros ?].
  repeat emits_step.
Qed.

Lemma emits_get_index_and_columns_order (P : effect -> Prop) (expected : list string)
    (columns_dict : gmap string string) (file_path : string) :
  emits P (get_index_and_columns_order expected columns_dict file_path).
Proof.
  unfold get_index_and_columns_order.
  apply emits_bind; [apply emits_get_column_names | intros ?].
  repeat emits_step. now apply emits_same.
Qed.

Lemma emits_mapper_domain (P : effect -> Prop) (domain : string) :
  emits P (mapper_domain cfg domain).
Proof.
  unfold mapper_domain. repeat emits_step.
  - apply emits_get_index_of_column.
  - repeat emits_step. now apply emits_same.
Qed.

Lemma emits_mapper (P : effect -> Prop) : emits P (mapper cfg).
Proof.
  unfold mapper. repeat emits_step. apply emits_mapper_domain.
Qed.

Lemma emits_mapper_of (P : effect -> Prop) (domain : string) :
  emits P (mapper_of cfg domain).
Proof.
  unfold mapper_of. apply emits_bind; [apply emits_mapper | intros ?].
  repeat emits_step.
Qed.

Lemma emits_import_chunk (names : list string) (table_name : string) (chunk : frame) :
  emits is_load (import_chunk cfg names table_name chunk).
Proof.
  unfold import_chunk, substitute_foreign_keys. repeat emits_step.
  apply emits_mapper_of.
Qed.

Lemma emits_import_table_in_db (file_path : string) (usecols : list nat)
    (names : list string) (table_name : string) :
  emits is_load (import_table_in_db cfg file_path usecols names table_name).
Proof.
  unfold import_table_in_db. repeat emits_step. apply emits_import_chunk.
Qed.

Lemma emits_import_one_to_many (file_path : string) (column_index : option nat)
    (parent column : string) :
  emits is_load (import_one_to_many cfg file_path column_index parent column).
Proof. unfold import_one_to_many. repeat emits_step. Qed.

Lemma emits_import_table (table : Table) : emits is_load (import_table cfg table).
Proof.
  unfold import_table. repeat emits_step.
  - apply emits_get_index_and_columns_order.
  - apply emits_import_table_in_db.
  - apply emits_get_index_of_column.
  - apply emits_import_one_to_many.
Qed.

Lemma emits_import_tables (only exclude : list string) :
  emits is_load (import_tables cfg only exclude).
Proof. unfold import_tables. repeat emits_step. apply emits_import_table. Qed.

Lemma emits_urlretrieve (url file_path : string) :
  emits is_download (urlretrieve url file_path).
Proof.
  intros w. unfold urlretrieve. destruct (web w !! url).
  - exists [UrlRetrieve url file_path]. split; [reflexivity|]. now constructor.
  - exists []. rewrite app_nil_r. split; [reflexivity | constructor].
Qed.

Lemma emits_download_urls (urls : list string) (force_download : bool) :
  emits is_download (download_urls cfg urls force_download).
Proof. unfold download_urls. repeat emits_step. apply emits_urlretrieve. Qed.

End EffectsOfImport.

Section ImportOrder.

Lemma drop_tables_run (cfg : config) (w : world) :
  (drop_tables cfg w).1 = Ok tt /\ trace (drop_tables cfg w).2 = trace w ++ [DropAll].
Proof. split; reflexivity. Qed.

Lemma create_tables_run (cfg : config) (w : world) :
  (create_tables cfg w).1 = Ok tt /\ trace (create_tables cfg w).2 = trace w ++ [CreateAll].
Proof. split; reflexivity. Qed.

(** C9 (as amended): every invocation of [db_import] first drops all
    tables, then downloads the source files that are needed, then
    creates all tables, then loads all tables: the operations it sends
    out are [DropAll], then downloads only, then [CreateAll], then table
    writes only; a run in which a download raises stops before
    [CreateAll]. *)
Theorem db_import_order (cfg : config) (urls_arg : option (list string))
    (force_download : bool) (w : world) :
  exists dl ld : list effect,
    Forall is_download dl /\ Forall is_load ld /\
    let run := db_import cfg urls_arg force_download w in
    (trace run.2 = trace w ++ [DropAll] ++ dl ++ [CreateAll] ++ ld \/
     (trace run.2 = trace w ++ [DropAll] ++ dl /\ exists e, run.1 = Raise e)).
Proof.
  unfold db_import.
  set (urls' := match urls_arg with Some u => u | None => urls cfg end).
  unfold mbind, M_bind.
  destruct (log_info "Update CTD database" w) as [[[]|e] w1] eqn:E1;
    [|discriminate E1].
  assert (T1 : trace w1 = trace w) by (inversion E1; reflexivity).
  destruct (drop_tables_run cfg w1) as [R2 T2].
  destruct (drop_tables cfg w1) as [[[]|e] w2]; cbn in R2, T2; [|discriminate R2].
  destruct (emits_download_urls cfg urls' force_download w2) as (dl & T3 & Hdl).
  destruct (download_urls cfg urls' force_download w2) as [[[]|e] w3]; cbn in T3.
  - destruct (create_tables_run cfg w3) as [R4 T4].
    destruct (create_tables cfg w3) as [[[]|e] w4]; cbn in R4, T4; [|discriminate R4].
    destruct (emits_import_tables cfg [] [] w4) as (ld & T5 & Hld).
    exists dl, ld. split; [exact Hdl|]. split; [exact Hld|].
    assert (T : trace (import_tables cfg [] [] w4).2
                = trace w ++ [DropAll] ++ dl ++ [CreateAll] ++ ld).
    { rewrite T5, T4, T3, T2, T1, <- !app_assoc. reflexivity. }
    cbn zeta. left. exact T.
  - exists dl, []. split; [exact Hdl|]. split; [constructor|].
    cbn. right. split; [|eauto]. rewrite T3, T2, T1, <- !app_assoc. reflexivity.
Qed.

(** C9, as stated, fails: the download comes before the tables are
    created again, not after. *)
Lemma db_import_downloads_before_create :
  let run := db_import one_url_config None false one_url_world in
  run.1 = Ok tt /\
  trace run.2 = [DropAll; UrlRetrieve "http://ctdbase.org/u.tsv" "data/u.tsv"; CreateAll] /\
  trace run.2 <> [DropAll; CreateAll; UrlRetrieve "http://ctdbase.org/u.tsv" "data/u.tsv"].
Proof.
  cbn zeta. split; [vm_compute; reflexivity|].
  assert (E : trace (db_import one_url_config None false one_url_world).2
              = [DropAll; UrlRetrieve "http://ctdbase.org/u.tsv" "data/u.tsv"; CreateAll])
    by (vm_compute; reflexivity).
  split; [exact E|]. rewrite E. discriminate.
Qed.

End ImportOrder.

(** ** The one-to-many expander *)

Section Expander.

Lemma range_index_int_label {A : Type} (start : Z) (l : list A) :
  Forall int_label (Pd.range_index start l).
Proof.
  revert start. induction l as [|x l IH]; intros start; cbn; constructor; [|apply IH].
  now exists start.
Qed.

Lemma shift_index_ok (l : list (cell * Pd.row)) :
  Forall int_label l ->
  Pd.shift_index l = Ok ((fun ir => (label_succ ir.1, ir.2)) <$> l).
Proof.
  induction 1 as [|[i r] l [z Hz] _ IH]; [reflexivity|].
  cbn in Hz. subst i. cbn. rewrite IH. reflexivity.
Qed.

Lemma one_to_many_rows_flat (label : string) (l : list (cell * Pd.row)) :
  one_to_many_rows label l
  = mjoin ((fun ir => (fun value => (ir.1, PyStr.strip value))
                        <$> PyStr.split "|" (py_str (Pd.get label ir.2))) <$> l).
Proof.
  induction l as [|[i r] l IH]; [reflexivity|].
  cbn. rewrite IH. f_equal. now destruct (Pd.get label r).
Qed.

Lemma chunked_join {A : Type} (size : Z) (l : list (cell * A)) :
  mjoin (Pd.chunked size l) = l.
Proof.
  induction l as [|[i x] l IH]; [reflexivity|].
  cbn [Pd.chunked]. destruct (Pd.chunked size l) as [|c cs].
  - cbn in IH. subst l. reflexivity.
  - cbn in IH. destruct (Pd.closes_chunk size i); cbn; now rewrite ?IH, <- ?IH.
Qed.

Lemma chunked_Forall {A : Type} (P : cell * A -> Prop) (size : Z)
    (l c : list (cell * A)) :
  Forall P l -> c ∈ Pd.chunked size l -> Forall P c.
Proof.
  intros Hl Hc. rewrite <- (chunked_join size l) in Hl.
  rewrite Forall_forall in Hl |- *. intros x Hx. apply Hl.
  apply list_elem_of_join. eauto.
Qed.

Lemma read_table_chunks_int_label (usecols : list nat) (names : list string)
    (size : Z) (data : list (list cell)) (chunks : list frame) (chunk : frame) :
  Pd.read_table_chunks usecols names size data = Ok chunks ->
  chunk ∈ chunks ->
  cols chunk = names /\ Forall int_label (rows chunk).
Proof.
  unfold Pd.read_table_chunks. intros E H.
  destruct data as [|line data].
  - destruct names as [|n names]; [discriminate E|]. injection E as <-.
    apply list_elem_of_singleton in H. subst chunk. cbn. split; [reflexivity|constructor].
  - destruct usecols as [|k usecols].
    + injection E as <-.
      apply list_elem_of_fmap in H. destruct H as (c & -> & Hc).
      apply list_elem_of_fmap in Hc. destruct Hc as (c' & -> & _).
      split; [reflexivity|constructor].
    + set (l := rows (Pd.read_table (k :: usecols) names (line :: data))) in E.
      assert (Hl : Forall int_label l)
        by exact (range_index_int_label 0
                    (Pd.select (k :: usecols) names <$> (line :: data))).
      clearbody l. injection E as <-.
      apply list_elem_of_fmap in H. destruct H as (c & -> & Hc).
      split; [reflexivity|]. exact (chunked_Forall _ size l c Hl Hc).
Qed.

Lemma read_column_chunks_int_label (k : nat) (size : Z) (data : list (list cell))
    (chunks : list frame) (chunk : frame) :
  Pd.read_column_chunks k size data = Ok chunks ->
  chunk ∈ chunks ->
  exists l, chunk = Frame None [pretty k] l /\ Forall int_label l.
Proof.
  unfold Pd.read_column_chunks. intros E H.
  destruct data as [|line data]; [discriminate E|].
  set (l := rows (Pd.read_table [k] [pretty k] (line :: data))) in E.
  assert (Hl : Forall int_label l)
    by exact (range_index_int_label 0 (Pd.select [k] [pretty k] <$> (line :: data))).
  clearbody l. injection E as <-.
  apply list_elem_of_fmap in H. destruct H as (c & -> & Hc).
  exists c. split; [reflexivity|]. exact (chunked_Forall _ size l c Hl Hc).
Qed.

Lemma expand_filtered (label : string) (l : list (cell * Pd.row)) :
  one_to_many_rows label
    ((fun ir => (label_succ ir.1, ir.2))
       <$> filter (fun ir => forallb (fun c => bool_decide (Pd.get c ir.2 <> NaN)) [label]) l)
  = mjoin (children label <$> l).
Proof.
  induction l as [|[i r] l IH]; [reflexivity|].
  rewrite filter_cons. rewrite fmap_cons.
  change (mjoin (children label (i, r) :: (children label <$> l)))
    with (children label (i, r) ++ mjoin (children label <$> l)).
  rewrite <- IH.
  unfold children. cbn [fst snd forallb].
  destruct (decide _) as [Hp|Hp].
  - rewrite fmap_cons. cbn [one_to_many_rows fst snd].
    destruct (Pd.get label r) eqn:E; try reflexivity.
    exfalso. cbn in Hp. rewrite bool_decide_eq_false_2 in Hp by tauto. exact Hp.
  - destruct (Pd.get label r) eqn:E; try reflexivity;
      exfalso; apply Hp; cbn; rewrite bool_decide_eq_true_2 by discriminate; exact I.
Qed.

Lemma one_to_many_chunk_children (label : string) (nm : option string)
    (l : list (cell * Pd.row)) :
  Forall int_label l ->
  one_to_many_chunk label (Frame nm [label] l) = Ok (mjoin (children label <$> l)).
Proof.
  intros Hl. unfold one_to_many_chunk, Pd.dropna. cbn [rows cols].
  rewrite shift_index_ok.
  - cbn. f_equal. apply expand_filtered.
  - rewrite Forall_forall in Hl |- *. intros x Hx. apply Hl.
    apply list_elem_of_filter in Hx. tauto.
Qed.

(** C7: on a chunk of the one column the expander reads, with the
    integer labels the reader gives, the expander raises nothing and
    emits, row after row, no child for a row whose value is missing and,
    for a row with a value, one child per piece between pipes, trimmed,
    under the parent key (label plus one); a value that is not a text is
    split in its [str()] form.  So ["A | B|C"] at parent key 5 gives
    (5,"A"), (5,"B"), (5,"C") and a missing value at parent key 6 gives
    nothing. *)
Theorem expander_children (label : string) (nm : option string)
    (l : list (cell * Pd.row)) :
  Forall int_label l ->
  one_to_many_chunk label (Frame nm [label] l) = Ok (mjoin (children label <$> l)) /\
  (forall (i : cell) (r : Pd.row), Pd.get label r = NaN -> children label (i, r) = []) /\
  (forall (z : Z) (r : Pd.row) (s : string), Pd.get label r = Str s ->
     children label (Int z, r)
     = (fun piece => (Int (z + 1), PyStr.strip piece)) <$> PyStr.split "|" s) /\
  (forall (z n : Z) (r : Pd.row), Pd.get label r = Int n ->
     children label (Int z, r)
     = (fun piece => (Int (z + 1), PyStr.strip piece)) <$> PyStr.split "|" (pretty n)) /\
  children "0" (Int 4, {[ "0" := Str "A | B|C" ]})
    = [(Int 5, "A"); (Int 5, "B"); (Int 5, "C")] /\
  children "0" (Int 5, {[ "0" := NaN ]}) = [].
Proof.
  intros Hl. split; [|split; [|split; [|split; [|split]]]].
  - now apply one_to_many_chunk_children.
  - intros i r E. unfold children. cbn. now rewrite E.
  - intros z r s E. unfold children. cbn. now rewrite E.
  - intros z n r E. unfold children. cbn. now rewrite E.
  - vm_compute. reflexivity.
  - vm_compute. reflexivity.
Qed.

(** A run of [expander_children] on a chunk of three rows: a list, a
    missing value and a number. *)
Lemma expander_children_witness :
  one_to_many_chunk "0"
    (Frame None ["0"] [(Int 4, {[ "0" := Str "A | B|C" ]});
                       (Int 5, {[ "0" := NaN ]});
                       (Int 6, {[ "0" := Int 42 ]})])
  = Ok [(Int 5, "A"); (Int 5, "B"); (Int 5, "C"); (Int 7, "42")].
Proof.
  refine (eq_trans (proj1 (expander_children "0" None _ _)) _).
  - repeat constructor; eexists; reflexivity.
  - vm_compute. reflexivity.
Defined.

End Expander.

(** ** The table loader: the [exposure_event] fix-up *)

Section ExposureEvent.

Lemma prepend_rows_ok (l l' : list (cell * Pd.row)) :
  Pd.prepend_rows "MESH:" "disease_id" l = Ok l' -> Forall2 prefixed l l'.
Proof.
  revert l'. induction l as [|[i r] l IH]; intros l' H; cbn in H.
  - inversion H. constructor.
  - destruct (prepend "MESH:" (Pd.get "disease_id" r)) as [v|] eqn:Ev; [|discriminate].
    destruct (Pd.prepend_rows "MESH:" "disease_id" l) as [l''|]; cbn in H; [|discriminate].
    inversion H; subst l'. constructor; [|now apply IH].
    unfold prefixed. cbn [fst snd]. split; [reflexivity|]. split; [|split].
    + intros c Hc. now rewrite lookup_insert_ne.
    + intros s Hs. rewrite Hs in Ev. inversion Ev.
      unfold Pd.get. now rewrite lookup_insert_eq.
    + intros Hn. rewrite Hn in Ev. inversion Ev.
      unfold Pd.get. now rewrite lookup_insert_eq.
Qed.

Lemma prepend_rows_total (l : list (cell * Pd.row)) :
  Forall (fun ir => Pd.get "disease_id" ir.2 = NaN \/
                    exists s, Pd.get "disease_id" ir.2 = Str s) l ->
  exists l', Pd.prepend_rows "MESH:" "disease_id" l = Ok l'.
Proof.
  induction 1 as [|[i r] l Hr _ [l' IH]]; [cbn; eauto|].
  cbn in Hr |- *. rewrite IH.
  destruct Hr as [-> | [s ->]]; cbn; eauto.
Qed.

Lemma text_column_spec (c : string) (f : frame) :
  Pd.text_column c f = true <->
  rows f = [] \/ Exists (fun ir => exists s, Pd.get c ir.2 = Str s) (rows f).
Proof.
  unfold Pd.text_column. rewrite orb_true_iff, bool_decide_eq_true.
  apply or_iff_compat_l. rewrite existsb_exists, Exists_exists.
  split.
  - intros (ir & Hin & Hs). exists ir. split; [now apply list_elem_of_In|].
    destruct (Pd.get c ir.2); try discriminate Hs. eauto.
  - intros (ir & Hin & s & Hs). exists ir. split; [now apply list_elem_of_In|].
    now rewrite Hs.
Qed.

(** C5: for the table [exposure_event] the loader's first step on a
    chunk puts ['MESH:'] in front of every value of the column
    [disease_id] (a missing value stays missing) and touches nothing
    else; it does so whenever the column is there and holds texts, that
    is, the chunk has no row or some value of the column is a text and
    the others are texts or missing; on a chunk with rows in which no
    value of the column is a text, the column has been read as numbers
    and the step raises [TypeError]; for any other table the chunk goes
    on as it is.  The step comes before the surrogate key is assigned
    and before any join: the rest of the body runs on the rewritten
    chunk, so that a row naming the disease ["D000123"] is joined as
    ["MESH:D000123"], which the same row in another table is not. *)
Theorem exposure_event_prefix :
  (forall chunk chunk' : frame,
     exposure_event_fix "exposure_event" chunk = Ok chunk' ->
     cols chunk' = cols chunk /\ Forall2 prefixed (rows chunk) (rows chunk')) /\
  (forall chunk : frame,
     "disease_id" ∈ cols chunk ->
     Forall (fun ir => Pd.get "disease_id" ir.2 = NaN \/
                       exists s, Pd.get "disease_id" ir.2 = Str s) (rows chunk) ->
     rows chunk = [] \/
       Exists (fun ir => exists s, Pd.get "disease_id" ir.2 = Str s) (rows chunk) ->
     exists chunk', exposure_event_fix "exposure_event" chunk = Ok chunk') /\
  (forall chunk : frame,
     "disease_id" ∈ cols chunk ->
     rows chunk <> [] ->
     Forall (fun ir => forall s, Pd.get "disease_id" ir.2 <> Str s) (rows chunk) ->
     exposure_event_fix "exposure_event" chunk = Raise "TypeError") /\
  (forall (table_name : string) (chunk : frame),
     table_name <> "exposure_event" -> exposure_event_fix table_name chunk = Ok chunk) /\
  (forall (cfg : config) (names : list string) (table_name : string)
          (chunk chunk' : frame) (w : world),
     exposure_event_fix table_name chunk = Ok chunk' ->
     import_chunk cfg names table_name chunk w
     = (chunk ← lift (Pd.set_index_plus_one "id" chunk');
        chunk ← substitute_foreign_keys cfg names table_name chunk;
        chunk ← lift (Pd.set_index "id" chunk);
        to_sql (TABLE_PREFIX cfg +:+ table_name) true chunk) w) /\
  exposure_event_fix "exposure_event" disease_chunk
    = Ok (Frame None ["disease_id"]
            [(Int 0, <["disease_id" := Str "MESH:D000123"]>
                       {[ "disease_id" := Str "D000123" ]})]) /\
  db (import_chunk disease_config ["disease_id"] "exposure_event"
        disease_chunk disease_world).2 !! "exposure_event"
    = Some [ <["id" := Int 1]> {[ "disease__id" := Int 1 ]} ] /\
  db (import_chunk disease_config ["disease_id"] "exposure"
        disease_chunk disease_world).2 !! "exposure"
    = Some [ <["id" := Int 1]> {[ "disease__id" := NaN ]} ].
Proof.
  split; [|split; [|split; [|split; [|split; [|split; [|split]]]]]].
  - intros chunk chunk' H. unfold exposure_event_fix, Pd.prepend_column in H.
    rewrite (bool_decide_eq_true_2 ("exposure_event" = "exposure_event")) in H
      by reflexivity.
    destruct (bool_decide ("disease_id" ∈ cols chunk)); [|discriminate].
    destruct (Pd.text_column "disease_id" chunk); [|discriminate].
    destruct (Pd.prepend_rows "MESH:" "disease_id" (rows chunk)) as [l'|] eqn:E;
      cbn in H; [|discriminate].
    inversion H; subst chunk'. cbn. split; [reflexivity|]. now apply prepend_rows_ok.
  - intros chunk Hc Hrows Htext. unfold exposure_event_fix, Pd.prepend_column.
    rewrite (bool_decide_eq_true_2 ("exposure_event" = "exposure_event")) by reflexivity.
    rewrite (bool_decide_eq_true_2 _ Hc).
    apply text_column_spec in Htext. rewrite Htext.
    destruct (prepend_rows_total _ Hrows) as [l' ->]. cbn. eauto.
  - intros chunk Hc Hne Hrows. unfold exposure_event_fix, Pd.prepend_column.
    rewrite (bool_decide_eq_true_2 ("exposure_event" = "exposure_event")) by reflexivity.
    rewrite (bool_decide_eq_true_2 _ Hc).
    destruct (Pd.text_column "disease_id" chunk) eqn:Et; [|reflexivity].
    apply text_column_spec in Et. destruct Et as [Et|Et]; [contradiction|].
    apply Exists_exists in Et. destruct Et as (ir & Hin & s & Hs).
    rewrite Forall_forall in Hrows. now destruct (Hrows ir Hin s).
  - intros table_name chunk Hne. unfold exposure_event_fix.
    now rewrite bool_decide_eq_false_2.
  - intros cfg names table_name chunk chunk' w H.
    unfold import_chunk. rewrite H. reflexivity.
  - vm_compute. reflexivity.
  - vm_compute. reflexivity.
  - vm_compute. reflexivity.
Qed.

(** A run of [exposure_event_prefix] on a chunk with a text and a
    missing value, on the same chunk for another table, and on a chunk
    whose one value is missing. *)
Lemma exposure_event_prefix_witness :
  let chunk := Frame None ["disease_id"]
                 [(Int 0, {[ "disease_id" := Str "D000123" ]});
                  (Int 1, {[ "disease_id" := NaN ]})] in
  (exists chunk', exposure_event_fix "exposure_event" chunk = Ok chunk') /\
  exposure_event_fix "gene" chunk = Ok chunk /\
  exposure_event_fix "exposure_event"
    (Frame None ["disease_id"] [(Int 0, {[ "disease_id" := NaN ]})])
  = Raise "TypeError".
Proof.
  intros chunk.
  pose proof exposure_event_prefix as (_ & Htotal & Hnum & Hother & _).
  split; [|split].
  - apply Htotal.
    + cbn. left.
    + cbn. constructor; [right; eexists; reflexivity|].
      constructor; [left; reflexivity|]. constructor.
    + right. cbn. left. eexists. reflexivity.
  - apply Hother. discriminate.
  - apply Hnum.
    + cbn. left.
    + discriminate.
    + cbn. constructor; [|constructor]. intros s. discriminate.
Defined.

End ExposureEvent.

(** ** The chunks of a file *)

Section ChunkKeys.

Lemma assign_index_plus_one_int (c : string) (l : list (cell * Pd.row)) :
  Forall int_label l ->
  Pd.assign_index_plus_one c l
  = Ok ((fun ir => (ir.1, <[c := label_succ ir.1]> ir.2)) <$> l).
Proof.
  induction 1 as [|[i r] l [z Hz] _ IH]; [reflexivity|].
  cbn in Hz. subst i. cbn. rewrite IH. reflexivity.
Qed.

Lemma read_table_chunks_join (usecols : list nat) (names : list string) (size : Z)
    (data : list (list cell)) (chunks : list frame) :
  usecols <> [] ->
  Pd.read_table_chunks usecols names size data = Ok chunks ->
  mjoin (rows <$> chunks) = Pd.range_index 0 (Pd.select usecols names <$> data).
Proof.
  unfold Pd.read_table_chunks. intros Hu E.
  destruct data as [|line data].
  - destruct names as [|n names]; [discriminate E|]. injection E as <-. reflexivity.
  - destruct usecols as [|k usecols]; [contradiction|].
    set (l := rows (Pd.read_table (k :: usecols) names (line :: data))) in E.
    change (Pd.range_index 0 (Pd.select (k :: usecols) names <$> line :: data)) with l.
    clearbody l. injection E as <-.
    rewrite <- list_fmap_compose.
    rewrite (list_fmap_ext _ id) by (intros; reflexivity).
    rewrite list_fmap_id. apply chunked_join.
Qed.

Lemma read_table_chunks_ok (usecols : list nat) (names : list string) (size : Z)
    (data : list (list cell)) :
  names <> [] \/ data <> [] ->
  exists chunks, Pd.read_table_chunks usecols names size data = Ok chunks.
Proof.
  unfold Pd.read_table_chunks. intros H.
  destruct data as [|line data]; [|eauto].
  destruct names as [|n names]; [|eauto]. now destruct H.
Qed.

Lemma read_column_chunks_ok (k : nat) (size : Z) (data : list (list cell)) :
  data <> [] ->
  exists cs,
    Pd.read_column_chunks k size data = Ok (Frame None [pretty k] <$> cs) /\
    Forall (Forall int_label) cs /\
    mjoin cs = Pd.range_index 0 (Pd.select [k] [pretty k] <$> data).
Proof.
  unfold Pd.read_column_chunks. intros H.
  destruct data as [|line data]; [contradiction|].
  set (l := rows (Pd.read_table [k] [pretty k] (line :: data))).
  change (Pd.range_index 0 (Pd.select [k] [pretty k] <$> line :: data)) with l.
  assert (Hl : Forall int_label l)
    by exact (range_index_int_label 0 (Pd.select [k] [pretty k] <$> (line :: data))).
  exists (Pd.chunked size l). split; [reflexivity|]. split; [|apply chunked_join].
  apply Forall_forall. intros c Hc. exact (chunked_Forall _ size l c Hl Hc).
Qed.

End ChunkKeys.

(** ** The left join against a mapping *)

Section ForeignKeys.


















Lemma mapper_cached (cfg : config) (w : world) :
  mapper_cache w <> ∅ -> mapper cfg w = (Ok (mapper_cache w), w).
Proof.
  intros H. unfold mapper, mbind, M_bind, gets.
  now rewrite (bool_decide_eq_false_2 _ H).
Qed.

End ForeignKeys.

(** * Further properties of the code *)

(** ** Reading the header of a file *)

Section HeaderScan.

Lemma scan_no_marker (ls : list string) :
  Forall no_marker ls -> column_names_scan false ls = None.
Proof.
  induction 1 as [|l ls Hl _ IH]; [reflexivity|].
  cbn [column_names_scan]. unfold no_marker in Hl. rewrite Hl. cbn. exact IH.
Qed.

Lemma scan_blank (ls : list string) :
  Forall blank_line ls -> column_names_scan true ls = None.
Proof.
  induction 1 as [|l ls Hl _ IH]; [reflexivity|].
  cbn [column_names_scan]. cbn [negb andb].
  destruct Hl as [-> | ->]; cbn; exact IH.
Qed.

Lemma scan_after_marker (blanks rest : list string) (h : string) :
  Forall blank_line blanks -> ~ blank_line h ->
  column_names_scan true (blanks ++ h :: rest) = Some (header_names h).
Proof.
  intros Hb Hh. induction Hb as [|l ls Hl _ IH].
  - cbn [app column_names_scan negb andb].
    rewrite bool_decide_eq_false_2 by (intros E; apply Hh; now left).
    rewrite bool_decide_eq_false_2 by (intros E; apply Hh; now right).
    reflexivity.
  - cbn [app column_names_scan negb andb].
    destruct Hl as [-> | ->]; cbn; exact IH.
Qed.

Lemma scan_found (pre blanks rest : list string) (m h : string) :
  Forall no_marker pre -> ~ no_marker m ->
  Forall blank_line blanks -> ~ blank_line h ->
  column_names_scan false (pre ++ m :: blanks ++ h :: rest) = Some (header_names h).
Proof.
  intros Hp Hm Hb Hh. induction Hp as [|l ls Hl _ IH].
  - cbn [app column_names_scan]. unfold no_marker in Hm.
    destruct (fields_marker (PyStr.strip m)); [|congruence].
    cbn. now apply scan_after_marker.
  - cbn [app column_names_scan]. unfold no_marker in Hl. rewrite Hl. cbn. exact IH.
Qed.

Lemma occurs_split (sep : ascii) (s p : string) :
  p ∈ PyStr.split sep s -> occurs sep p = false.
Proof.
  revert p. induction s as [|a s IH]; intros p Hp; cbn in Hp.
  - apply list_elem_of_singleton in Hp. now subst p.
  - destruct (Ascii.eqb a sep) eqn:E.
    + apply elem_of_cons in Hp. destruct Hp as [->|Hp]; [reflexivity | now apply IH].
    + destruct (PyStr.split sep s) as [|q qs].
      * apply list_elem_of_singleton in Hp. subst p. cbn. now rewrite E.
      * apply elem_of_cons in Hp. destruct Hp as [->|Hp].
        -- cbn. rewrite E. cbn. apply IH. left.
        -- apply IH. now right.
Qed.

Lemma occurs_lstrip (c : ascii) (s : string) :
  occurs c s = false -> occurs c (PyStr.lstrip s) = false.
Proof.
  induction s as [|a s IH]; [trivial|]. cbn [PyStr.lstrip].
  intros H. destruct (PyStr.isspace a); [|exact H].
  apply IH. cbn in H. now apply orb_false_elim in H.
Qed.

Lemma occurs_rstrip (c : ascii) (s : string) :
  occurs c s = false -> occurs c (PyStr.rstrip s) = false.
Proof.
  induction s as [|a s IH]; [trivial|]. cbn [PyStr.rstrip occurs].
  intros H. apply orb_false_elim in H. destruct H as [Ha Hs].
  specialize (IH Hs). destruct (PyStr.rstrip s) as [|b r].
  - destruct (PyStr.isspace a); [reflexivity|]. cbn. now rewrite Ha.
  - cbn [occurs]. rewrite Ha. exact IH.
Qed.

Lemma occurs_strip (c : ascii) (s : string) :
  occurs c s = false -> occurs c (PyStr.strip s) = false.
Proof. intros H. now apply occurs_rstrip, occurs_lstrip. Qed.

Lemma header_names_clean (line c : string) :
  c ∈ header_names line -> PyStr.strip c = c /\ occurs "009" c = false.
Proof.
  unfold header_names. intros H. apply list_elem_of_fmap in H.
  destruct H as (p & -> & Hp). split; [apply strip_idem|].
  apply occurs_strip. now apply occurs_split in Hp.
Qed.

End HeaderScan.

Section HeaderProperties.

Lemma blank_no_marker (l : string) : blank_line l -> no_marker l.
Proof. unfold no_marker. intros [-> | ->]; reflexivity. Qed.

Lemma scan_marker_without_header (pre blanks : list string) (m : string) :
  Forall no_marker pre -> Forall blank_line blanks ->
  column_names_scan false (pre ++ m :: blanks) = None.
Proof.
  intros Hp Hb. induction Hp as [|l ls Hl _ IH].
  - cbn [app column_names_scan].
    destruct (fields_marker (PyStr.strip m)) eqn:Em; cbn.
    + now apply scan_blank.
    + apply scan_no_marker. eapply Forall_impl; [exact Hb | apply blank_no_marker].
  - cbn [app column_names_scan]. unfold no_marker in Hl. rewrite Hl. cbn. exact IH.
Qed.

Lemma scan_some_names (fl : bool) (ls : list string) (names : list string) :
  column_names_scan fl ls = Some names ->
  exists h, h ∈ ls /\ names = header_names h.
Proof.
  revert fl. induction ls as [|l ls IH]; intros fl H; [discriminate H|].
  cbn [column_names_scan] in H.
  destruct (negb fl && fields_marker (PyStr.strip l)).
  - destruct (IH _ H) as (h & Hh & E). exists h. split; [now right | exact E].
  - destruct (fl && negb _).
    + inversion H. exists l. split; [left | reflexivity].
    + destruct (IH _ H) as (h & Hh & E). exists h. split; [now right | exact E].
Qed.

(** X1: a file in which no line is the [Fields] marker, or in which only
    blank lines and lone [#] follow the marker, has no column names:
    [get_column_names_from_file] returns [None], and
    [get_index_of_column] and [get_index_and_columns_order] raise
    [TypeError] on it; none of them changes anything. *)
Theorem header_missing (file_path : string) (w : world) (f : ctd_file) :
  fs w !! file_path = Some f ->
  (Forall no_marker (lines f) \/
   exists pre m blanks, lines f = pre ++ m :: blanks /\
                        Forall no_marker pre /\ Forall blank_line blanks) ->
  get_column_names_from_file file_path w = (Ok None, w) /\
  (forall column, get_index_of_column column file_path w = (Raise "TypeError", w)) /\
  (forall expected columns_dict,
     get_index_and_columns_order expected columns_dict file_path w
     = (Raise "TypeError", w)).
Proof.
  intros Hf Hl.
  assert (Hs : column_names_scan false (lines f) = None).
  { destruct Hl as [Hl | (pre & m & blanks & -> & Hp & Hb)].
    - now apply scan_no_marker.
    - now apply scan_marker_without_header. }
  pose proof (get_column_names_from_file_ok file_path w f Hf) as Hrun.
  rewrite Hs in Hrun. split; [exact Hrun|]. split.
  - intros column. unfold get_index_of_column, mbind, M_bind. now rewrite Hrun.
  - intros expected columns_dict.
    unfold get_index_and_columns_order, mbind, M_bind. now rewrite Hrun.
Qed.

(** A run of [header_missing] on a file of one comment and one data
    line. *)
Lemma header_missing_witness :
  get_column_names_from_file "f" headerless_world = (Ok None, headerless_world) /\
  (forall column, get_index_of_column column "f" headerless_world
                  = (Raise "TypeError", headerless_world)) /\
  (forall expected columns_dict,
     get_index_and_columns_order expected columns_dict "f" headerless_world
     = (Raise "TypeError", headerless_world)).
Proof.
  apply (header_missing "f" headerless_world headerless_file).
  - reflexivity.
  - left. constructor; [vm_compute; reflexivity|].
    constructor; [vm_compute; reflexivity|]. constructor.
Defined.

(** X2: the column names of a file are those of the first line after the
    [Fields] marker that is neither blank nor a lone [#]: the text after
    its first character, cut at the tabs, each piece trimmed.  Lines
    before the marker and lines after that header line play no part. *)
Theorem header_found (file_path : string) (w : world) (f : ctd_file)
    (pre blanks rest : list string) (m h : string) :
  fs w !! file_path = Some f ->
  lines f = pre ++ m :: blanks ++ h :: rest ->
  Forall no_marker pre -> ~ no_marker m ->
  Forall blank_line blanks -> ~ blank_line h ->
  get_column_names_from_file file_path w = (Ok (Some (header_names h)), w).
Proof.
  intros Hf Hl Hp Hm Hb Hh.
  rewrite (get_column_names_from_file_ok file_path w f Hf), Hl.
  now rewrite (scan_found pre blanks rest m h Hp Hm Hb Hh).
Qed.

(** A run of [header_found]: the marker, an empty comment, the header
    and a data line. *)
Lemma header_found_witness :
  get_column_names_from_file "f"
    (World {[ "f" := CtdFile ["# Fields:"; "#"; "# a" +:+ String "009" " b "; "1"] [] ]}
           ∅ ∅ [] ∅ [])
  = (Ok (Some ["a"; "b"]),
     World {[ "f" := CtdFile ["# Fields:"; "#"; "# a" +:+ String "009" " b "; "1"] [] ]}
           ∅ ∅ [] ∅ []).
Proof.
  apply (header_found "f" _ (CtdFile ["# Fields:"; "#"; "# a" +:+ String "009" " b "; "1"] [])
           [] ["#"] ["1"] "# Fields:" ("# a" +:+ String "009" " b ")).
  - reflexivity.
  - reflexivity.
  - constructor.
  - unfold no_marker. vm_compute. discriminate.
  - constructor; [right; vm_compute; reflexivity | constructor].
  - intros [H|H]; vm_compute in H; discriminate H.
Defined.

(** X3: every column name [get_column_names_from_file] returns is
    trimmed and holds no tab. *)
Theorem header_columns_trimmed (file_path : string) (w w' : world)
    (names : list string) (c : string) :
  get_column_names_from_file file_path w = (Ok (Some names), w') ->
  c ∈ names ->
  PyStr.strip c = c /\ occurs "009" c = false.
Proof.
  intros Hrun Hc. unfold get_column_names_from_file, mbind, M_bind, open_file in Hrun.
  destruct (fs w !! file_path) as [f|]; [|discriminate Hrun].
  unfold mret, M_ret in Hrun. inversion Hrun as [[Hs Hw]].
  destruct (scan_some_names _ _ _ Hs) as (h & _ & ->).
  now apply header_names_clean with (line := h).
Qed.

(** A run of [header_columns_trimmed] on the file with the columns [a]
    and [b]. *)
Lemma header_columns_trimmed_witness :
  PyStr.strip "b" = "b" /\ occurs "009" "b" = false.
Proof.
  apply (header_columns_trimmed "f" two_column_world two_column_world ["a"; "b"] "b").
  - vm_compute. reflexivity.
  - right. left.
Defined.

End HeaderProperties.

(** ** Looking columns up *)

Section ColumnLookup.

Lemma list_index_first (x : string) (l : list string) :
  first_position x l (list_index x l).
Proof.
  induction l as [|y l IH]; cbn.
  - intros H. inversion H.
  - case_bool_decide as E.
    + subst y. cbn. split; [reflexivity|]. intros j Hj. lia.
    + destruct (list_index x l) as [k|]; cbn in *.
      * destruct IH as [Hk Hfirst]. split; [exact Hk|].
        intros [|j] Hj; cbn; [congruence|]. apply Hfirst. lia.
      * intros H. apply elem_of_cons in H. destruct H as [H|H]; [congruence | auto].
Qed.

(** X4: on a file with a header, [get_index_of_column] changes nothing
    and answers with the first position of the header that holds the
    column, or with [None] when the header does not hold it. *)
Theorem index_of_column_first (column file_path : string) (w : world)
    (f : ctd_file) (header : list string) :
  fs w !! file_path = Some f ->
  column_names_scan false (lines f) = Some header ->
  exists r, get_index_of_column column file_path w = (Ok r, w) /\
            first_position column header r.
Proof.
  intros Hf Hh. unfold get_index_of_column, mbind, M_bind.
  rewrite (get_column_names_from_file_ok _ _ _ Hf), Hh.
  case_bool_decide as Hin.
  - eexists. split; [reflexivity|]. apply list_index_first.
  - exists None. split; [reflexivity|]. exact Hin.
Qed.

(** A run of [index_of_column_first]: [b] is at position 1 of the header
    [a], [b], and [c] is not in it. *)
Lemma index_of_column_first_witness :
  (exists r, get_index_of_column "b" "f" two_column_world = (Ok r, two_column_world) /\
             first_position "b" ["a"; "b"] r) /\
  get_index_of_column "b" "f" two_column_world = (Ok (Some 1%nat), two_column_world) /\
  get_index_of_column "c" "f" two_column_world = (Ok None, two_column_world).
Proof.
  split; [|split; vm_compute; reflexivity].
  apply (index_of_column_first "b" "f" two_column_world two_column_file ["a"; "b"]).
  - reflexivity.
  - vm_compute. reflexivity.
Defined.

Lemma index_and_columns_bound (columns_dict : gmap string string) (header : list string)
    (n : nat) :
  Forall (fun j => (j < n + length header)%nat)
         (index_and_columns columns_dict n header).1.
Proof.
  destruct (index_and_columns_spec columns_dict header n) as (Hmem & _ & _).
  apply Forall_forall. intros j Hj. apply Hmem in Hj.
  destruct Hj as (i & c & -> & Hi & _). apply lookup_lt_Some in Hi. lia.
Qed.

(** X5: on a file with a header, [get_index_and_columns_order] never
    raises and touches nothing but the log; the two lists it returns
    have the same length, and the first holds positions of the header,
    in strictly increasing order. *)
Theorem reconciler_plan_well_formed (expected : list string)
    (columns_dict : gmap string string) (file_path : string) (w : world)
    (f : ctd_file) (header : list string) :
  fs w !! file_path = Some f ->
  column_names_scan false (lines f) = Some header ->
  exists idx names w',
    get_index_and_columns_order expected columns_dict file_path w
      = (Ok (idx, names), w') /\
    length idx = length names /\
    StronglySorted lt idx /\
    Forall (fun j => (j < length header)%nat) idx /\
    fs w' = fs w /\ web w' = web w /\ db w' = db w /\
    mapper_cache w' = mapper_cache w /\ trace w' = trace w.
Proof.
  intros Hf Hh. unfold get_index_and_columns_order, mbind, M_bind.
  rewrite (get_column_names_from_file_ok _ _ _ Hf), Hh.
  destruct (negb _).
  - eexists [], [], _. split; [reflexivity|]. cbn.
    split; [reflexivity|]. split; [constructor|]. split; [constructor|].
    repeat split.
  - destruct (index_and_columns_spec columns_dict header 0) as (_ & Hsort & Hnames).
    pose proof (index_and_columns_bound columns_dict header 0) as Hb.
    destruct (index_and_columns columns_dict 0 header) as [idx names] eqn:E.
    cbn in Hsort, Hnames, Hb.
    exists idx, names, w. split; [reflexivity|].
    split; [eapply Forall2_length; exact Hnames|].
    split; [exact Hsort|]. split; [exact Hb|]. repeat split.
Qed.

(** A run of [reconciler_plan_well_formed] on the file with the columns
    [a] and [b], of which [b] is wanted. *)
Lemma reconciler_plan_well_formed_witness :
  exists idx names w',
    get_index_and_columns_order ["b"] {[ "b" := "b_db" ]} "f" two_column_world
      = (Ok (idx, names), w') /\
    length idx = length names /\
    StronglySorted lt idx /\
    Forall (fun j => (j < 2)%nat) idx /\
    fs w' = fs two_column_world /\ web w' = web two_column_world /\
    db w' = db two_column_world /\
    mapper_cache w' = mapper_cache two_column_world /\
    trace w' = trace two_column_world.
Proof.
  apply (reconciler_plan_well_formed ["b"] {[ "b" := "b_db" ]} "f" two_column_world
           two_column_file ["a"; "b"]).
  - reflexivity.
  - vm_compute. reflexivity.
Defined.

End ColumnLookup.

(** ** Tables and their selection *)

Section Tables.

(** X6: [Table.__init__] keeps as many expected file columns as database
    columns; its rename map sends a file column to the database name of
    the last pair of the configuration with that column, holds only
    pairs of the configuration, and holds nothing for a column the
    configuration does not name; a configuration without [one_to_many]
    gives none. *)
Theorem Table_init_columns (name : string) (conf : table_conf) :
  let t := Table_init name conf in
  length (columns_in_file_expected t) = length (columns_in_db t) /\
  (forall c d, columns_dict t !! c = Some d -> (c, d) ∈ conf_columns conf) /\
  (forall l1 l2 c d, conf_columns conf = l1 ++ (c, d) :: l2 -> c ∉ l2.*1 ->
     columns_dict t !! c = Some d) /\
  (forall c, c ∉ columns_in_file_expected t -> columns_dict t !! c = None) /\
  (conf_one_to_many conf = None -> one_to_many t = []).
Proof.
  cbn [Table_init columns_in_file_expected columns_in_db columns_dict one_to_many].
  cbn zeta.
  split; [now rewrite !length_fmap|]. split; [|split; [|split]].
  - intros c d H. unfold py_dict in H. apply elem_of_list_to_map_2 in H.
    apply elem_of_reverse_2 in H. now rewrite reverse_involutive in H.
  - intros l1 l2 c d E Hc. unfold py_dict. rewrite E, reverse_app, reverse_cons.
    rewrite <- app_assoc. rewrite list_to_map_app.
    rewrite lookup_union_r.
    + cbn. apply lookup_insert_eq.
    + apply not_elem_of_list_to_map_1. now rewrite fmap_reverse, elem_of_reverse.
  - intros c Hc. apply eq_None_not_Some. intros H. apply Hc.
    now apply py_dict_keys.
  - now intros ->.
Qed.

(** A run of [Table_init_columns]: the column [a] is configured twice. *)
Lemma Table_init_columns_witness :
  let t := Table_init "t" (TableConf [("a", "x"); ("b", "y"); ("a", "z")] "f" None None) in
  columns_dict t !! "a" = Some "z" /\ columns_dict t !! "c" = None /\ one_to_many t = [].
Proof.
  intros t.
  pose proof (Table_init_columns "t"
                (TableConf [("a", "x"); ("b", "y"); ("a", "z")] "f" None None))
    as (_ & _ & Hlast & Hnone & Ho2m).
  split; [|split].
  - apply (Hlast [("a", "x"); ("b", "y")] [] "a" "z"); [reflexivity|].
    intros H. inversion H.
  - apply Hnone. cbn. intros H.
    repeat (apply elem_of_cons in H; destruct H as [H|H]; [discriminate H|]).
    inversion H.
  - apply Ho2m. reflexivity.
Defined.

(** X7: for a table as [Table.__init__] builds it and a file with a
    header, every destination name in the plan
    [get_index_and_columns_order] returns is one of the database columns
    the table declares. *)
Theorem plan_names_declared (name : string) (conf : table_conf) (file_path : string)
    (w w' : world) (f : ctd_file) (header : list string)
    (idx : list nat) (names : list string) :
  let t := Table_init name conf in
  fs w !! file_path = Some f ->
  column_names_scan false (lines f) = Some header ->
  get_index_and_columns_order (columns_in_file_expected t) (columns_dict t) file_path w
    = (Ok (idx, names), w') ->
  names ⊆ columns_in_db t.
Proof.
  intros t Hf Hh Hrun. unfold get_index_and_columns_order, mbind, M_bind in Hrun.
  rewrite (get_column_names_from_file_ok _ _ _ Hf), Hh in Hrun.
  destruct (negb _).
  - inversion Hrun. intros x Hx. inversion Hx.
  - unfold mret, M_ret in Hrun.
    destruct (index_and_columns_spec (columns_dict t) header 0) as (_ & _ & Hnames).
    cbv zeta in Hnames.
    destruct (index_and_columns (columns_dict t) 0 header) as [idx' names'].
    inversion Hrun; subst idx' names'. cbn [fst snd] in Hnames.
    intros nm Hnm. apply list_elem_of_lookup in Hnm. destruct Hnm as [i Hi].
    destruct (Forall2_lookup_r _ _ _ _ _ Hnames Hi) as (j & _ & (k & c & _ & _ & Hc)).
    subst t. cbn [Table_init columns_dict columns_in_db] in *. unfold py_dict in Hc. apply elem_of_list_to_map_2 in Hc.
    apply elem_of_reverse_2 in Hc. rewrite reverse_involutive in Hc.
    apply list_elem_of_fmap. exists (c, nm). now split.
Qed.

(** A run of [plan_names_declared] on the file with the columns [a] and
    [b]. *)
Lemma plan_names_declared_witness :
  ["a_db"; "b_db"] ⊆ columns_in_db
    (Table_init "t" (TableConf [("a", "a_db"); ("b", "b_db")] "f" None None)).
Proof.
  apply (plan_names_declared "t" (TableConf [("a", "a_db"); ("b", "b_db")] "f" None None)
           "f" two_column_world two_column_world two_column_file ["a"; "b"]
           [0%nat; 1%nat]).
  - reflexivity.
  - vm_compute. reflexivity.
  - vm_compute. reflexivity.
Defined.

(** X8: [import_tables] imports, in the order of the registry, the
    tables that are in [only_tables] (all of them when [only_tables] is
    empty) and not in [exclude_tables], and does nothing for the
    others. *)
Theorem import_tables_selected (cfg : config) (only_tables exclude_tables : list string)
    (w : world) :
  import_tables cfg only_tables exclude_tables w
  = for_each (filter (fun t => selected only_tables exclude_tables (name t))
                     (self_tables cfg))
             (import_table cfg) w.
Proof.
  unfold import_tables. generalize (self_tables cfg). intros ts. revert w.
  induction ts as [|t ts IH]; intros w; [reflexivity|].
  rewrite filter_cons. cbn [for_each].
  destruct (decide (selected only_tables exclude_tables (name t))) as [Hs|Hs].
  - destruct Hs as [Ho He].
    rewrite (bool_decide_eq_false_2 (name t ∈ exclude_tables)) by exact He.
    assert (Hc : negb (bool_decide (only_tables = []))
                 && negb (bool_decide (name t ∈ only_tables)) = false).
    { destruct Ho as [Ho|Ho].
      - now rewrite (bool_decide_eq_true_2 _ Ho).
      - rewrite (bool_decide_eq_true_2 _ Ho). cbn. apply andb_false_r. }
    rewrite Hc. cbn [orb for_each]. unfold mbind, M_bind.
    destruct (import_table cfg t w) as [[[]|e] w1]; [apply IH | reflexivity].
  - assert (Hc : (negb (bool_decide (only_tables = []))
                  && negb (bool_decide (name t ∈ only_tables)))
                 || bool_decide (name t ∈ exclude_tables) = true).
    { destruct (decide (name t ∈ exclude_tables)) as [He|He].
      - rewrite (bool_decide_eq_true_2 _ He). apply orb_true_r.
      - destruct (decide (only_tables = [])) as [Ho|Ho].
        + exfalso. apply Hs. split; [now left | exact He].
        + destruct (decide (name t ∈ only_tables)) as [Hi|Hi].
          * exfalso. apply Hs. split; [now right | exact He].
          * rewrite (bool_decide_eq_false_2 _ Ho), (bool_decide_eq_false_2 _ Hi).
            reflexivity. }
    rewrite Hc. unfold mbind, M_bind, mret, M_ret. apply IH.
Qed.

End Tables.

(** ** Downloading *)

Section Download.

Variable cfg : config.

Lemma download_urls_loop (urls : list string) (force_download : bool) :
  download_urls cfg urls force_download = for_each urls (download_one cfg force_download).
Proof. reflexivity. Qed.

Lemma download_step (url : string) (force_download : bool) (w : world) :
  let run := download_one cfg force_download url w in
  db run.2 = db w /\ mapper_cache run.2 = mapper_cache w /\ web run.2 = web w /\
  (forall p, is_Some (fs w !! p) -> is_Some (fs run.2 !! p)) /\
  (run.1 = Ok tt -> is_Some (fs run.2 !! get_path_to_file_from_url cfg url)) /\
  (force_download = false -> forall p f, fs w !! p = Some f -> fs run.2 !! p = Some f).
Proof.
  unfold download_one.
  cbn zeta. unfold mbind, M_bind, gets, log_info, modify, urlretrieve, mret, M_ret.
  set (p0 := get_path_to_file_from_url cfg url).
  assert (Hins : forall (f : ctd_file) (p : string),
            is_Some (fs w !! p) -> is_Some (<[p0 := f]> (fs w) !! p)).
  { intros f p Hp. destruct (decide (p0 = p)) as [->|Hne].
    - rewrite lookup_insert_eq. eauto.
    - now rewrite lookup_insert_ne. }
  destruct (decide (is_Some (fs w !! p0))) as [Hex|Hno].
  - rewrite (bool_decide_eq_true_2 _ Hex). destruct force_download; cbn [orb negb].
    + cbn [web fs].
      destruct (web w !! url) as [f|]; cbn.
      * split; [reflexivity|]. split; [reflexivity|]. split; [reflexivity|].
        split; [apply Hins|]. split; [|discriminate].
        intros _. rewrite lookup_insert_eq. eauto.
      * split; [reflexivity|]. split; [reflexivity|]. split; [reflexivity|].
        split; [auto|]. split; discriminate.
    + cbn.
      split; [reflexivity|]. split; [reflexivity|]. split; [reflexivity|].
      split; [auto|]. split; auto.
  - rewrite (bool_decide_eq_false_2 _ Hno). rewrite !orb_true_r.
    cbn [web fs].
    destruct (web w !! url) as [f|]; cbn.
    + split; [reflexivity|]. split; [reflexivity|]. split; [reflexivity|].
      split; [apply Hins|]. split.
      * intros _. rewrite lookup_insert_eq. eauto.
      * intros _ p g Hp. destruct (decide (p0 = p)) as [->|Hne].
        -- exfalso. apply Hno. rewrite Hp. eauto.
        -- now rewrite lookup_insert_ne.
    + split; [reflexivity|]. split; [reflexivity|]. split; [reflexivity|].
      split; [auto|]. split; [discriminate | auto].
Qed.

(** X9: [download_urls] touches neither the database nor the mapping
    cache and never removes a file; when it returns, the file of every
    URL is there; without [force_download] a file that was there keeps
    its content, whether or not the run raises. *)
Theorem download_urls_files (urls : list string) (force_download : bool) (w : world) :
  let run := download_urls cfg urls force_download w in
  db run.2 = db w /\ mapper_cache run.2 = mapper_cache w /\
  (forall p, is_Some (fs w !! p) -> is_Some (fs run.2 !! p)) /\
  (run.1 = Ok tt ->
   forall url, url ∈ urls -> is_Some (fs run.2 !! get_path_to_file_from_url cfg url)) /\
  (force_download = false -> forall p f, fs w !! p = Some f -> fs run.2 !! p = Some f).
Proof.
  cbn zeta. rewrite download_urls_loop. revert w.
  induction urls as [|url urls IH]; intros w.
  - cbn. split; [reflexivity|]. split; [reflexivity|]. split; [auto|].
    split; [|auto]. intros _ url H. inversion H.
  - cbn [for_each]. unfold mbind, M_bind.
    pose proof (download_step url force_download w) as Hstep. cbn zeta in Hstep.
    destruct (download_one cfg force_download url w) as [[[]|e] w1];
      cbn [fst snd] in Hstep;
      destruct Hstep as (Hdb & Hcache & _ & Hkeep & Hhere & Hsame).
    + destruct (IH w1) as (Idb & Icache & Ikeep & Iall & Isame).
      split; [congruence|]. split; [congruence|]. split; [auto|]. split.
      * intros Hok url' Hin. apply elem_of_cons in Hin. destruct Hin as [->|Hin].
        -- apply Ikeep. now apply Hhere.
        -- now apply Iall.
      * intros Hf p f Hp. apply Isame; [exact Hf|]. now apply Hsame.
    + cbn. split; [exact Hdb|]. split; [exact Hcache|]. split; [exact Hkeep|].
      split; [discriminate | exact Hsame].
Qed.

End Download.

(** A run of [download_urls_files]: the first file is there and is left
    as it is, the second is fetched. *)
Lemma download_urls_files_witness :
  let run := download_urls two_url_config (urls two_url_config) false two_url_world in
  run.1 = Ok tt /\
  (forall url, url ∈ urls two_url_config ->
     is_Some (fs run.2 !! get_path_to_file_from_url two_url_config url)) /\
  fs run.2 !! "data/a.tsv" = Some (CtdFile ["old"] []) /\
  fs run.2 !! "data/b.tsv" = Some (CtdFile ["new b"] []).
Proof.
  intros run.
  pose proof (download_urls_files two_url_config (urls two_url_config) false two_url_world)
    as (_ & _ & _ & Hall & Hsame).
  assert (Hok : run.1 = Ok tt) by (vm_compute; reflexivity).
  split; [exact Hok|]. split; [exact (Hall Hok)|]. split.
  - apply (Hsame eq_refl). reflexivity.
  - vm_compute. reflexivity.
Defined.

(** ** Dropping and creating the tables *)

Section Schema.

Lemma drop_all_lookup (ts : list string) (d : gmap string (list Pd.row)) (t : string) :
  foldr (fun t d => delete t d) d ts !! t
  = if bool_decide (t ∈ ts) then None else d !! t.
Proof.
  induction ts as [|t0 ts IH]; cbn.
  - now rewrite bool_decide_eq_false_2 by (intros H; inversion H).
  - destruct (decide (t0 = t)) as [->|Hne].
    + rewrite lookup_delete_eq. now rewrite bool_decide_eq_true_2 by left.
    + rewrite lookup_delete_ne by exact Hne. rewrite IH.
      apply (f_equal (fun b : bool => if b then None else d !! t)).
      apply bool_decide_ext. rewrite elem_of_cons. split; [tauto|].
      intros [E|E]; [congruence | exact E].
Qed.

Lemma create_all_lookup (ts : list string) (d : gmap string (list Pd.row)) (t : string) :
  foldr (fun t d => match d !! t with Some _ => d | None => <[t := []]> d end) d ts !! t
  = match d !! t with
    | Some rs => Some rs
    | None => if bool_decide (t ∈ ts) then Some [] else None
    end.
Proof.
  induction ts as [|t0 ts IH]; cbn.
  - rewrite bool_decide_eq_false_2 by (intros H; inversion H). now destruct (d !! t).
  - set (d' := foldr _ d ts) in *.
    destruct (decide (t0 = t)) as [->|Hne].
    + rewrite (bool_decide_eq_true_2 (t ∈ t :: ts)) by left.
      destruct (d' !! t) as [rs|] eqn:E.
      * rewrite E. destruct (d !! t); [exact IH|].
        destruct (bool_decide (t ∈ ts)); [exact IH | discriminate IH].
      * rewrite lookup_insert_eq. destruct (d !! t); [|reflexivity].
        discriminate IH.
    + assert (Hl : match d' !! t0 with
                   | Some _ => d'
                   | None => <[t0 := []]> d'
                   end !! t = d' !! t).
      { destruct (d' !! t0); [reflexivity | now rewrite lookup_insert_ne]. }
      rewrite Hl, IH. destruct (d !! t); [reflexivity|].
      apply (f_equal (fun b : bool => if b then Some [] else None)).
      apply bool_decide_ext. rewrite elem_of_cons. split; [tauto|].
      intros [E|E]; [congruence | exact E].
Qed.

End Schema.

(** ** What the import never does to the database *)

Section AppendOnly.

Lemma db_grows_refl (w w' : world) : db w' = db w -> db_grows w w'.
Proof. intros E t rs H. exists []. now rewrite E, app_nil_r. Qed.

Lemma db_grows_trans (w1 w2 w3 : world) :
  db_grows w1 w2 -> db_grows w2 w3 -> db_grows w1 w3.
Proof.
  intros H12 H23 t rs H. destruct (H12 t rs H) as [m1 H1].
  destruct (H23 t _ H1) as [m2 H2]. exists (m1 ++ m2). now rewrite app_assoc.
Qed.

Lemma append_only_same {A : Type} (m : M A) :
  (forall w, db (m w).2 = db w /\ fs (m w).2 = fs w /\ web (m w).2 = web w) ->
  append_only m.
Proof.
  intros H w. destruct (H w) as (Hd & Hf & Hw).
  split; [now apply db_grows_refl | now split].
Qed.

Lemma append_only_ret {A : Type} (a : A) : append_only (mret a).
Proof. now apply append_only_same. Qed.

Lemma append_only_lift {A : Type} (r : result A) : append_only (lift r).
Proof. now apply append_only_same. Qed.

Lemma append_only_raise {A : Type} (e : string) : append_only (raise (A:=A) e).
Proof. now apply append_only_same. Qed.

Lemma append_only_gets {A : Type} (f : world -> A) : append_only (gets f).
Proof. now apply append_only_same. Qed.

Lemma append_only_log_info (msg : string) : append_only (log_info msg).
Proof. now apply append_only_same. Qed.

Lemma append_only_open_file (file_path : string) : append_only (open_file file_path).
Proof.
  apply append_only_same. intros w. unfold open_file.
  now destruct (fs w !! file_path).
Qed.

Lemma append_only_bind {A B : Type} (m : M A) (k : A -> M B) :
  append_only m -> (forall a, append_only (k a)) -> append_only (m ≫= k).
Proof.
  intros Hm Hk w. unfold mbind, M_bind.
  destruct (Hm w) as (Hd & Hf & Hw).
  destruct (m w) as [[a|e] w1]; cbn [snd] in *.
  - destruct (Hk a w1) as (Hd' & Hf' & Hw').
    split; [eapply db_grows_trans; eauto|]. split; congruence.
  - now split.
Qed.

Lemma append_only_for_each {A : Type} (l : list A) (body : A -> M unit) :
  (forall x, append_only (body x)) -> append_only (for_each l body).
Proof.
  intros Hb. induction l as [|x l IH]; cbn [for_each].
  - apply append_only_ret.
  - apply append_only_bind; [apply Hb | intros _; exact IH].
Qed.

Lemma append_only_for_fold {A B : Type} (l : list A) (body : B -> A -> M B) (acc : B) :
  (forall b x, append_only (body b x)) -> append_only (for_fold l body acc).
Proof.
  intros Hb. revert acc. induction l as [|x l IH]; intros acc; cbn [for_fold].
  - apply append_only_ret.
  - apply append_only_bind; [apply Hb | intros acc'; apply IH].
Qed.

Lemma append_only_to_sql (name : string) (with_index : bool) (f : frame) :
  append_only (to_sql name with_index f).
Proof.
  intros w. unfold to_sql, mbind, M_bind, emit, modify.
  cbn [fst snd db fs web log mapper_cache trace].
  split; [|now split].
  intros t rs H. destruct (decide (name = t)) as [->|Hne].
  - cbn [db]. rewrite lookup_insert_eq, H. cbn. eauto.
  - cbn [db]. rewrite lookup_insert_ne by exact Hne. exists []. now rewrite app_nil_r.
Qed.

End AppendOnly.

Section AppendOnlyImport.

Variable cfg : config.

Create HintDb append_only discriminated.

#[local] Hint Resolve append_only_ret append_only_lift append_only_raise append_only_gets
  append_only_log_info append_only_open_file append_only_to_sql : append_only.

Ltac append_step :=
  match goal with
  | |- append_only (_ ≫= _) => apply append_only_bind; [|intros ?]
  | |- append_only (for_each _ _) => apply append_only_for_each; intros ?
  | |- append_only (for_fold _ _ _) => apply append_only_for_fold; intros ? ?
  | |- append_only (match ?x with _ => _ end) => destruct x
  | |- append_only (if ?b then _ else _) => destruct b
  | |- append_only (let '(_, _) := ?x in _) => destruct x
  | |- append_only _ => solve [eauto with append_only]
  end.

Lemma append_only_get_column_names (file_path : string) :
  append_only (get_column_names_from_file file_path).
Proof. unfold get_column_names_from_file. repeat append_step. Qed.

Lemma append_only_get_index_of_column (column file_path : string) :
  append_only (get_index_of_column column file_path).
Proof.
  unfold get_index_of_column.
  apply append_only_bind; [apply append_only_get_column_names | intros ?].
  repeat append_step.
Qed.

Lemma append_only_reconciler (expected : list string)
    (columns_dict : gmap string string) (file_path : string) :
  append_only (get_index_and_columns_order expected columns_dict file_path).
Proof.
  unfold get_index_and_columns_order.
  apply append_only_bind; [apply append_only_get_column_names | intros ?].
  repeat append_step. now apply append_only_same.
Qed.

Lemma append_only_mapper_domain (domain : string) :
  append_only (mapper_domain cfg domain).
Proof.
  unfold mapper_domain. repeat append_step.
  - apply append_only_get_index_of_column.
  - repeat append_step. now apply append_only_same.
Qed.

Lemma append_only_mapper : append_only (mapper cfg).
Proof. unfold mapper. repeat append_step. apply append_only_mapper_domain. Qed.

Lemma append_only_mapper_of (domain : string) : append_only (mapper_of cfg domain).
Proof.
  unfold mapper_of. apply append_only_bind; [apply append_only_mapper | intros ?].
  repeat append_step.
Qed.

Lemma append_only_import_chunk (names : list string) (table_name : string)
    (chunk : frame) :
  append_only (import_chunk cfg names table_name chunk).
Proof.
  unfold import_chunk, substitute_foreign_keys. repeat append_step.
  apply append_only_mapper_of.
Qed.

Lemma append_only_import_table_in_db (file_path : string) (usecols : list nat)
    (names : list string) (table_name : string) :
  append_only (import_table_in_db cfg file_path usecols names table_name).
Proof.
  unfold import_table_in_db. repeat append_step. apply append_only_import_chunk.
Qed.

Lemma append_only_import_one_to_many (file_path : string) (column_index : option nat)
    (parent column : string) :
  append_only (import_one_to_many cfg file_path column_index parent column).
Proof. unfold import_one_to_many. repeat append_step. Qed.

Lemma append_only_import_table (table : Table) : append_only (import_table cfg table).
Proof.
  unfold import_table. repeat append_step.
  - apply append_only_reconciler.
  - apply append_only_import_table_in_db.
  - apply append_only_get_index_of_column.
  - apply append_only_import_one_to_many.
Qed.

Lemma append_only_import_tables (only_tables exclude_tables : list string) :
  append_only (import_tables cfg only_tables exclude_tables).
Proof. unfold import_tables. repeat append_step. apply append_only_import_table. Qed.

(** X11: [import_tables], whatever it is given and whether or not it
    raises, never removes a table, never removes or rewrites a row that
    is in the database (every table keeps its rows, in order, as a
    prefix of what it holds afterwards), and changes no file. *)
Theorem import_tables_append_only (only_tables exclude_tables : list string) :
  append_only (import_tables cfg only_tables exclude_tables).
Proof. apply append_only_import_tables. Qed.

End AppendOnlyImport.

Section ImportState.

Lemma download_urls_db (cfg : config) (urls : list string) (force_download : bool)
    (w : world) :
  db (download_urls cfg urls force_download w).2 = db w.
Proof.
  rewrite download_urls_loop. revert w.
  induction urls as [|url urls IH]; intros w; [reflexivity|].
  cbn [for_each]. unfold mbind, M_bind.
  pose proof (download_step cfg url force_download w) as Hstep. cbn zeta in Hstep.
  destruct (download_one cfg force_download url w) as [[[]|e] w1];
    cbn [fst snd] in Hstep; destruct Hstep as (Hdb & _).
  - now rewrite IH.
  - exact Hdb.
Qed.

(** X12: [db_import] leaves the tables of the models in one of two
    states: all of them there, or, when a download raised, none of
    them, the exception being passed on (the tables were dropped and are
    not created again). *)
Theorem db_import_tables (cfg : config) (urls_arg : option (list string))
    (force_download : bool) (w : world) :
  let run := db_import cfg urls_arg force_download w in
  (forall t, t ∈ model_tables cfg -> is_Some (db run.2 !! t)) \/
  ((exists e, run.1 = Raise e) /\
   forall t, t ∈ model_tables cfg -> db run.2 !! t = None).
Proof.
  cbn zeta. unfold db_import.
  set (urls' := match urls_arg with Some u => u | None => urls cfg end).
  unfold mbind, M_bind.
  destruct (log_info "Update CTD database" w) as [[[]|e] w1] eqn:E1;
    [|discriminate E1].
  assert (D1 : db w1 = db w) by (inversion E1; reflexivity).
  assert (D2 : forall t, t ∈ model_tables cfg -> db (drop_tables cfg w1).2 !! t = None).
  { intros t Ht. unfold drop_tables, mbind, M_bind, log_info, emit, modify.
    cbn [fst snd db]. rewrite drop_all_lookup. now rewrite bool_decide_eq_true_2. }
  destruct (drop_tables_run cfg w1) as [R2 _].
  destruct (drop_tables cfg w1) as [[[]|e] w2]; cbn [fst snd] in R2, D2;
    [|discriminate R2].
  pose proof (download_urls_db cfg urls' force_download w2) as D3.
  destruct (download_urls cfg urls' force_download w2) as [[[]|e] w3]; cbn [snd] in D3.
  - left.
    assert (D4 : forall t, t ∈ model_tables cfg ->
                   is_Some (db (create_tables cfg w3).2 !! t)).
    { intros t Ht. unfold create_tables, mbind, M_bind, log_info, emit, modify.
      cbn [fst snd db]. rewrite create_all_lookup.
      destruct (db w3 !! t); [eauto|]. rewrite bool_decide_eq_true_2 by exact Ht. eauto. }
    destruct (create_tables_run cfg w3) as [R4 _].
    destruct (create_tables cfg w3) as [[[]|e] w4]; cbn [fst snd] in R4, D4;
      [|discriminate R4].
    intros t Ht. destruct (D4 t Ht) as [rs Hrs].
    destruct (append_only_import_tables cfg [] [] w4) as (Hgrow & _).
    destruct (Hgrow t rs Hrs) as [more Hmore]. rewrite Hmore. eauto.
  - right. split; [eauto|]. cbn [snd]. intros t Ht. rewrite D3. now apply D2.
Qed.

End ImportState.

(** ** The mapping cache *)

Section MapperCache.

Variable cfg : config.

Lemma get_index_of_column_world (column file_path : string) (w : world) :
  (get_index_of_column column file_path w).2 = w.
Proof.
  unfold get_index_of_column, get_column_names_from_file, mbind, M_bind, open_file.
  destruct (fs w !! file_path) as [f|]; [|reflexivity].
  cbn. destruct (column_names_scan false (lines f)) as [columns|]; [|reflexivity].
  now destruct (bool_decide (column ∈ columns)).
Qed.

Lemma mapper_domain_ok (domain : string) (w w' : world) :
  mapper_domain cfg domain w = (Ok tt, w') ->
  exists df, w' = World (fs w) (web w) (db w) (log w)
                        (<[domain := df]> (mapper_cache w)) (trace w).
Proof.
  unfold mapper_domain.
  destruct (_ !! domain) as [tab_conf|]; [|discriminate].
  destruct (conf_domain_id_column tab_conf) as [[colf cold]|]; [|discriminate].
  unfold mbind at 1. unfold M_bind.
  pose proof (get_index_of_column_world colf
                (path_join (PYCTD_DATA_DIR cfg) (conf_file_name tab_conf)) w) as Hw.
  destruct (get_index_of_column colf _ w) as [[[k|]|e] w0]; cbn [snd] in Hw; subst w0;
    try discriminate.
  unfold mbind at 1. unfold M_bind, open_file.
  destruct (fs w !! _) as [f|]; [|discriminate].
  unfold mbind, M_bind, lift.
  destruct (mapper_frame domain cold k (data f)) as [df|]; [|discriminate].
  unfold modify. intros H. inversion H. eauto.
Qed.

Lemma mapper_loop_ok (ds : list string) (w w' : world) :
  for_each ds (mapper_domain cfg) w = (Ok tt, w') ->
  fs w' = fs w /\ web w' = web w /\ db w' = db w /\ log w' = log w /\
  trace w' = trace w /\
  (forall d, is_Some (mapper_cache w' !! d) <-> d ∈ ds \/ is_Some (mapper_cache w !! d)).
Proof.
  revert w. induction ds as [|d ds IH]; intros w H.
  - inversion H; subst w'. repeat split; auto.
    + intros [Hin|Hs]; [inversion Hin | exact Hs].
  - cbn [for_each] in H. unfold mbind, M_bind in H.
    destruct (mapper_domain cfg d w) as [[[]|e] w1] eqn:E; [|discriminate H].
    destruct (mapper_domain_ok d w w1 E) as [df ->].
    destruct (IH _ H) as (Hf & Hw & Hd & Hl & Ht & Hc). cbn in Hf, Hw, Hd, Hl, Ht, Hc.
    split; [exact Hf|]. split; [exact Hw|]. split; [exact Hd|].
    split; [exact Hl|]. split; [exact Ht|].
    intros d'. rewrite Hc, elem_of_cons.
    destruct (decide (d = d')) as [->|Hne].
    + rewrite lookup_insert_eq. split; [intros _; left; now left|]. intros _. right. eauto.
    + rewrite lookup_insert_ne by exact Hne. split; [tauto|].
      intros [[E'|Hin]|Hs]; [congruence | now left | now right].
Qed.

(** X13: when the cache is empty and the [mapper] property returns, it
    has changed nothing but the cache, what it returns is the cache, and
    the cache holds a mapping for every domain of [domains_to_map] and
    for nothing else; from then on, with at least one domain, the
    property returns that cache without looking at any file. *)
Theorem mapper_fills_cache (w w' : world) (m : gmap string frame) :
  mapper_cache w = ∅ ->
  mapper cfg w = (Ok m, w') ->
  m = mapper_cache w' /\
  (forall d, is_Some (m !! d) <-> d ∈ domains_to_map cfg) /\
  fs w' = fs w /\ web w' = web w /\ db w' = db w /\ log w' = log w /\
  trace w' = trace w /\
  (domains_to_map cfg <> [] ->
   forall w'' : world, mapper_cache w'' = m -> mapper cfg w'' = (Ok m, w'')).
Proof.
  intros Hempty H. unfold mapper in H. unfold mbind at 1 in H. unfold M_bind, gets in H.
  rewrite (bool_decide_eq_true_2 _ Hempty) in H.
  unfold mbind, M_bind in H.
  destruct (for_each (domains_to_map cfg) (mapper_domain cfg) w) as [[[]|e] w1] eqn:E;
    [|discriminate H].
  inversion H; subst m w1. clear H.
  destruct (mapper_loop_ok _ _ _ E) as (Hf & Hw & Hd & Hl & Ht & Hc).
  assert (Hdom : forall d, is_Some (mapper_cache w' !! d) <-> d ∈ domains_to_map cfg).
  { intros d. rewrite Hc, Hempty, lookup_empty. split; [|now left].
    intros [Hin|Hs]; [exact Hin | now destruct Hs]. }
  split; [reflexivity|]. split; [exact Hdom|].
  split; [exact Hf|]. split; [exact Hw|]. split; [exact Hd|].
  split; [exact Hl|]. split; [exact Ht|].
  intros Hne w'' Hcache.
  rewrite <- Hcache. apply mapper_cached. rewrite Hcache.
  intros Hnil. destruct (domains_to_map cfg) as [|d ds]; [congruence|].
  assert (Hs : is_Some (mapper_cache w' !! d)) by (apply Hdom; left).
  rewrite Hnil, lookup_empty in Hs. now destruct Hs.
Qed.

End MapperCache.

(** A run of [mapper_fills_cache] on the gene file. *)
Lemma mapper_fills_cache_witness :
  exists (m : gmap string frame) (w' : world),
    mapper gene_config gene_world = (Ok m, w') /\
    (forall d, is_Some (m !! d) <-> d ∈ ["gene"]) /\
    fs w' = fs gene_world /\
    (forall w'' : world, mapper_cache w'' = m -> mapper gene_config w'' = (Ok m, w'')).
Proof.
  destruct (mapper gene_config gene_world) as [[m|e] w'] eqn:E;
    [|vm_compute in E; discriminate E].
  exists m, w'. split; [reflexivity|].
  destruct (mapper_fills_cache gene_config gene_world w' m eq_refl E)
    as (_ & Hdom & Hf & _ & _ & _ & _ & Hagain).
  split; [exact Hdom|]. split; [exact Hf|].
  apply Hagain. discriminate.
Defined.

(** * The load, from any state of the mapping cache *)

(** ** What the [mapper] property leaves behind *)

Section MapperResult.

Variable cfg : config.





End MapperResult.

(** ** Foreign-key substitution *)

Section ForeignKeySubstitution.



End ForeignKeySubstitution.

(** ** What the loader writes for a domain table *)

Section LoaderRows.

Variable cfg : config.

Lemma to_sql_run (name : string) (with_index : bool) (f : frame) (w : world) :
  to_sql name with_index f w = (Ok tt, written name (Pd.sql_rows with_index f) w).
Proof. reflexivity. Qed.

Lemma loader_row_sql (i : cell) (r : Pd.row) :
  <["id" := Pd.get "id" (<["id" := label_succ i]> r)]>
    (delete "id" (<["id" := label_succ i]> r))
  = loader_row (i, r).
Proof.
  unfold loader_row, Pd.get. cbn [fst snd].
  rewrite lookup_insert_eq. cbn.
  now rewrite insert_delete_eq, insert_insert_eq.
Qed.

Lemma import_chunk_domain (names : list string) (table_name : string)
    (chunk : frame) (w : world) :
  Forall int_label (rows chunk) ->
  table_name ∈ domains_to_map cfg ->
  table_name <> "exposure_event" ->
  import_chunk cfg names table_name chunk w
  = (Ok tt, written (TABLE_PREFIX cfg +:+ table_name) (loader_row <$> rows chunk) w).
Proof.
  intros Hint Hdom Hexp. unfold import_chunk, exposure_event_fix.
  rewrite (bool_decide_eq_false_2 _ Hexp).
  unfold mbind at 1. unfold M_bind, lift.
  unfold Pd.set_index_plus_one. rewrite (assign_index_plus_one_int "id" _ Hint).
  cbn [mbind result_bind]. unfold mbind at 1. unfold M_bind.
  unfold substitute_foreign_keys. rewrite (bool_decide_eq_true_2 _ Hdom). cbn [negb].
  unfold mbind at 1. unfold M_bind, mret, M_ret.
  unfold Pd.set_index. cbn [cols rows index_name].
  assert (Hid : "id" ∈ (if bool_decide ("id" ∈ cols chunk) then cols chunk
                        else cols chunk ++ ["id"])).
  { case_bool_decide as H; [exact H|]. apply elem_of_app. right. left. }
  rewrite (bool_decide_eq_true_2 _ Hid).
  unfold mbind, M_bind. rewrite to_sql_run. f_equal. f_equal.
  unfold Pd.sql_rows. cbn [rows index_name default].
  rewrite <- !list_fmap_compose. apply list_fmap_ext. intros _ [i r] _.
  cbn. apply loader_row_sql.
Qed.

Lemma import_chunks_domain (names : list string) (table_name : string)
    (chunks : list frame) :
  table_name ∈ domains_to_map cfg ->
  table_name <> "exposure_event" ->
  Forall (fun chunk => Forall int_label (rows chunk)) chunks ->
  forall (w : world) (old : list Pd.row),
    db w !! (TABLE_PREFIX cfg +:+ table_name) = Some old ->
    let run := for_each chunks (import_chunk cfg names table_name) w in
    run.1 = Ok tt /\
    db run.2 !! (TABLE_PREFIX cfg +:+ table_name)
      = Some (old ++ (loader_row <$> mjoin (rows <$> chunks))) /\
    (forall n, n <> TABLE_PREFIX cfg +:+ table_name -> db run.2 !! n = db w !! n) /\
    fs run.2 = fs w.
Proof.
  intros Hdom Hexp Hall. induction Hall as [|chunk chunks Hint _ IH]; intros w old Hold.
  - cbn. rewrite app_nil_r. auto.
  - cbn [for_each]. unfold mbind, M_bind.
    rewrite (import_chunk_domain names table_name chunk w Hint Hdom Hexp).
    set (w1 := written _ _ w).
    assert (Hold1 : db w1 !! (TABLE_PREFIX cfg +:+ table_name)
                    = Some (old ++ (loader_row <$> rows chunk))).
    { unfold w1, written. cbn [db]. now rewrite lookup_insert_eq, Hold. }
    destruct (IH w1 _ Hold1) as (Hr & Hd & Ho & Hf).
    split; [exact Hr|]. split; [|split].
    + rewrite Hd. rewrite fmap_cons. cbn [mjoin list_join].
      now rewrite fmap_app, app_assoc.
    + intros n Hn. rewrite (Ho n Hn). unfold w1, written. cbn [db].
      now rewrite lookup_insert_ne by congruence.
    + rewrite Hf. reflexivity.
Qed.

(** X14: for a table that is a mappable domain (and is not
    [exposure_event]) whose file is there and whose table exists, under
    a read plan that fits the file, [import_table_in_db] returns,
    appends to the table one row per data line of the file, in file
    order, each with the values read and the key ordinal plus one in
    [id], and changes no other table and no file. *)
Theorem import_domain_table (file_path : string) (usecols : list nat)
    (names : list string) (width : nat) (table_name : string) (w : world)
    (f : ctd_file) (old : list Pd.row) :
  fs w !! file_path = Some f ->
  plan_fits usecols names width ->
  rectangular width (data f) ->
  table_name ∈ domains_to_map cfg ->
  table_name <> "exposure_event" ->
  db w !! (TABLE_PREFIX cfg +:+ table_name) = Some old ->
  let run := import_table_in_db cfg file_path usecols names table_name w in
  run.1 = Ok tt /\
  db run.2 !! (TABLE_PREFIX cfg +:+ table_name)
    = Some (old ++ (loader_row
                      <$> Pd.range_index 0 (Pd.select usecols names <$> data f))) /\
  (forall n, n <> TABLE_PREFIX cfg +:+ table_name -> db run.2 !! n = db w !! n) /\
  fs run.2 = fs w.
Proof.
  intros Hf (Hu & Hlen & _) _ Hdom Hexp Hold. cbv zeta.
  assert (Hn : names <> []).
  { intros ->. destruct usecols; [contradiction | discriminate Hlen]. }
  destruct (read_table_chunks_ok usecols names chunksize (data f) (or_introl Hn))
    as [chunks Ech].
  assert (Erun : import_table_in_db cfg file_path usecols names table_name w
                 = for_each chunks (import_chunk cfg names table_name) w).
  { unfold import_table_in_db. unfold mbind at 1. unfold M_bind at 1.
    unfold open_file. rewrite Hf. unfold mbind at 1. unfold M_bind at 1.
    unfold lift. now rewrite Ech. }
  rewrite Erun. rewrite <- (read_table_chunks_join usecols names chunksize (data f) chunks Hu Ech).
  apply import_chunks_domain; try assumption.
  apply Forall_forall. intros chunk Hc.
  now destruct (read_table_chunks_int_label _ _ _ _ _ _ Ech Hc).
Qed.

End LoaderRows.

(** A run of [import_domain_table] on the gene file: three rows with the
    keys 1, 2, 3. *)
Lemma import_domain_table_witness :
  let w := World (fs gene_world) ∅ {[ "ctd_gene" := [] ]} [] ∅ [] in
  let run := import_table_in_db gene_config "data/genes.tsv" [0%nat] ["gene_id"] "gene" w in
  run.1 = Ok tt /\
  db run.2 !! "ctd_gene"
    = Some [ <["id" := Int 1]> {[ "gene_id" := Str "A1" ]};
             <["id" := Int 2]> {[ "gene_id" := Str "B2" ]};
             <["id" := Int 3]> {[ "gene_id" := Str "C3" ]} ].
Proof.
  intros w run.
  destruct (import_domain_table gene_config "data/genes.tsv" [0%nat] ["gene_id"] 2%nat
              "gene" w gene_file [])
    as (Hr & Hd & _).
  - reflexivity.
  - split; [discriminate|]. split; [reflexivity|].
    split; [repeat constructor|]. split; [repeat constructor|apply NoDup_singleton].
  - repeat constructor.
  - left.
  - discriminate.
  - reflexivity.
  - split; [exact Hr|]. etransitivity; [exact Hd|]. vm_compute. reflexivity.
Defined.

(** ** What the expander writes *)

Section ExpanderRows.

Variable cfg : config.

Lemma range_index_values {A B : Type} (g : A -> B) (start : Z) (l : list A) :
  (fun ix => g ix.2) <$> Pd.range_index start l = g <$> l.
Proof.
  revert start. induction l as [|x l IH]; intros start; [reflexivity|].
  cbn [Pd.range_index]. rewrite !fmap_cons. cbn [snd]. now rewrite IH.
Qed.

Lemma one_to_many_frame_sql (pid column : string) (pairs : list (cell * string)) :
  Pd.sql_rows false (one_to_many_frame pid column pairs) = child_row pid column <$> pairs.
Proof.
  unfold Pd.sql_rows, one_to_many_frame. cbn [rows].
  rewrite (range_index_values (fun r : Pd.row => r)), list_fmap_id. reflexivity.
Qed.

Lemma expand_chunk (label pid column name : string) (c : list (cell * Pd.row))
    (w : world) :
  Forall int_label c ->
  (pairs ← lift (one_to_many_chunk label (Frame None [label] c));
   to_sql name false (one_to_many_frame pid column pairs)) w
  = (Ok tt, written name (child_row pid column <$> mjoin (children label <$> c)) w).
Proof.
  intros Hint. unfold mbind, M_bind, lift.
  rewrite (one_to_many_chunk_children label None c Hint).
  now rewrite to_sql_run, one_to_many_frame_sql.
Qed.

Lemma expand_chunks (label pid column name : string) (chunks : list (list (cell * Pd.row))) :
  Forall (Forall int_label) chunks ->
  forall (w : world) (old : list Pd.row),
    db w !! name = Some old ->
    let run :=
      for_each (Frame None [label] <$> chunks)
        (fun chunk =>
           pairs ← lift (one_to_many_chunk label chunk);
           to_sql name false (one_to_many_frame pid column pairs)) w in
    run.1 = Ok tt /\
    db run.2 !! name
      = Some (old ++ (child_row pid column <$> mjoin (children label <$> mjoin chunks))) /\
    (forall n, n <> name -> db run.2 !! n = db w !! n) /\
    fs run.2 = fs w.
Proof.
  intros Hall. induction Hall as [|c chunks Hint _ IH]; intros w old Hold.
  - cbn. rewrite app_nil_r. auto.
  - set (sent := child_row pid column <$> mjoin (children label <$> c)).
    set (w1 := written name sent w).
    set (body := fun chunk : frame =>
                   pairs ← lift (one_to_many_chunk label chunk);
                   to_sql name false (one_to_many_frame pid column pairs)) in *.
    assert (E : for_each (Frame None [label] <$> c :: chunks) body w
                = for_each (Frame None [label] <$> chunks) body w1).
    { rewrite fmap_cons. cbn [for_each]. unfold mbind at 1. unfold M_bind at 1.
      unfold body at 1. now rewrite (expand_chunk label pid column name c w Hint). }
    cbv zeta. rewrite E.
    assert (Hold1 : db w1 !! name = Some (old ++ sent)).
    { unfold w1, written. cbn [db]. now rewrite lookup_insert_eq, Hold. }
    destruct (IH w1 _ Hold1) as (Hr & Hd & Ho & Hf).
    split; [exact Hr|]. split; [|split].
    + etransitivity; [exact Hd|]. cbn [mjoin list_join]. f_equal.
      rewrite fmap_app, join_app, fmap_app, app_assoc. reflexivity.
    + intros n Hn. etransitivity; [exact (Ho n Hn)|]. unfold w1, written. cbn [db].
      now rewrite lookup_insert_ne by congruence.
    + etransitivity; [exact Hf|]. reflexivity.
Qed.

Lemma import_one_to_many_run (file_path : string) (column_index : nat)
    (parent_table_name column : string) (w : world) (f : ctd_file)
    (old : list Pd.row) :
  fs w !! file_path = Some f ->
  data f <> [] ->
  db w !! (TABLE_PREFIX cfg +:+ parent_table_name +:+ "__" +:+ column) = Some old ->
  exists w' : world,
    import_one_to_many cfg file_path (Some column_index) parent_table_name column w
      = (Ok tt, w') /\
    db w' !! (TABLE_PREFIX cfg +:+ parent_table_name +:+ "__" +:+ column)
      = Some (old ++ (child_row (parent_table_name +:+ "__id") column
                        <$> mjoin (children (pretty column_index)
                                     <$> Pd.range_index 0
                                           (Pd.select [column_index] [pretty column_index]
                                              <$> data f)))) /\
    (forall n, n <> TABLE_PREFIX cfg +:+ parent_table_name +:+ "__" +:+ column ->
               db w' !! n = db w !! n) /\
    fs w' = fs w.
Proof.
  intros Hf Hdata Hold.
  set (label := pretty column_index).
  destruct (read_column_chunks_ok column_index chunksize (data f) Hdata)
    as (chunks & Ech & Hall & Hjoin).
  destruct (expand_chunks label (parent_table_name +:+ "__id") column
              (TABLE_PREFIX cfg +:+ parent_table_name +:+ "__" +:+ column)
              chunks Hall w old Hold) as (Hr & Hd & Ho & Hfs).
  rewrite Hjoin in Hd.
  assert (ES : import_one_to_many cfg file_path (Some column_index)
                                  parent_table_name column w
               = for_each (Frame None [label] <$> chunks)
                   (fun chunk =>
                      pairs ← lift (one_to_many_chunk label chunk);
                      to_sql (TABLE_PREFIX cfg +:+ parent_table_name +:+ "__" +:+ column)
                             false
                             (one_to_many_frame (parent_table_name +:+ "__id") column pairs))
                   w).
  { unfold import_one_to_many. unfold mbind at 1. unfold M_bind at 1.
    unfold open_file. rewrite Hf. cbv zeta. unfold mbind at 1. unfold M_bind at 1.
    unfold lift. now rewrite Ech. }
  rewrite ES. destruct (for_each _ _ w) as [r w'].
  cbn [fst snd] in *. subst r. eauto 10.
Qed.

(** X15: when the file is there with at least one data line, all lines
    have the column, and the child table exists, [import_one_to_many]
    with the index of the column returns and appends to the table
    [TABLE_PREFIX + parent + "__" + column] the children of all rows of
    the file, in file order: for every data line with a value in the
    column, one row per piece between pipes, trimmed, under the parent
    key ordinal plus one in [parent + "__id"]; it changes no other table
    and no file.  Without an index (the header does not have the
    column) it raises [ValueError] and writes nothing. *)
Theorem import_one_to_many_rows (file_path : string) (column_index width : nat)
    (parent_table_name column : string) (w : world) (f : ctd_file)
    (old : list Pd.row) :
  fs w !! file_path = Some f ->
  data f <> [] ->
  rectangular width (data f) ->
  (column_index < width)%nat ->
  db w !! (TABLE_PREFIX cfg +:+ parent_table_name +:+ "__" +:+ column) = Some old ->
  let label := pretty column_index in
  let o2m_table_name := TABLE_PREFIX cfg +:+ parent_table_name +:+ "__" +:+ column in
  let run := import_one_to_many cfg file_path (Some column_index)
                                parent_table_name column w in
  run.1 = Ok tt /\
  db run.2 !! o2m_table_name
    = Some (old ++ (child_row (parent_table_name +:+ "__id") column
                      <$> mjoin (children label
                                   <$> Pd.range_index 0
                                         (Pd.select [column_index] [label] <$> data f)))) /\
  (forall n, n <> o2m_table_name -> db run.2 !! n = db w !! n) /\
  fs run.2 = fs w /\
  import_one_to_many cfg file_path None parent_table_name column w
    = (Raise "ValueError", w).
Proof.
  intros Hf Hdata _ _ Hold. cbv zeta.
  destruct (import_one_to_many_run file_path column_index parent_table_name column
              w f old Hf Hdata Hold) as (w' & Hrun & Hd & Ho & Hfs).
  rewrite Hrun. cbn [fst snd].
  split; [reflexivity|]. split; [exact Hd|]. split; [exact Ho|]. split; [exact Hfs|].
  unfold import_one_to_many, mbind, M_bind, open_file. now rewrite Hf.
Qed.

End ExpanderRows.

(** A run of [import_one_to_many_rows] on the synonyms of the gene file:
    two children for the first gene, none for the second, one for the
    third. *)
Lemma import_one_to_many_rows_witness :
  let w := World (fs gene_world) ∅ {[ "ctd_gene__synonym" := [] ]} [] ∅ [] in
  let run := import_one_to_many gene_config "data/genes.tsv" (Some 1%nat) "gene" "synonym" w in
  run.1 = Ok tt /\
  db run.2 !! "ctd_gene__synonym"
    = Some [ <["synonym" := Str "x"]> {[ "gene__id" := Int 1 ]};
             <["synonym" := Str "y"]> {[ "gene__id" := Int 1 ]};
             <["synonym" := Str "z"]> {[ "gene__id" := Int 3 ]} ].
Proof.
  intros w run.
  destruct (import_one_to_many_rows gene_config "data/genes.tsv" 1%nat 2%nat "gene" "synonym"
              w gene_file [])
    as (Hr & Hd & _).
  - reflexivity.
  - discriminate.
  - repeat constructor.
  - lia.
  - reflexivity.
  - split; [exact Hr|]. etransitivity; [exact Hd|]. vm_compute. reflexivity.
Defined.

(** ** The children of the expander's row loop *)

Section ChildValues.

Lemma split_length (sep : ascii) (s : string) :
  length (PyStr.split sep s) = S (count_char sep s).
Proof.
  induction s as [|a s IH]; [reflexivity|]. cbn [PyStr.split count_char].
  destruct (Ascii.eqb a sep); cbn [length]; [now rewrite IH|].
  destruct (PyStr.split sep s) as [|p ps]; [discriminate IH|exact IH].
Qed.

Lemma one_to_many_rows_length (label : string) (l : list (cell * Pd.row)) :
  length (one_to_many_rows label l)
  = sum_list ((fun ir => S (count_char "|" (entry_text label ir))) <$> l).
Proof.
  induction l as [|[i r] l IH]; [reflexivity|].
  cbn [one_to_many_rows]. cbv zeta.
  rewrite length_app, length_fmap, split_length, IH, fmap_cons.
  unfold entry_text. cbn [snd sum_list sum_list_with id].
  destruct (Pd.get label r); reflexivity.
Qed.

(** X16: the row loop of the expander gives, for every row it sees, one
    child more than there are pipes in the row's text; every child value
    is free of pipes and of surrounding white space, and every child
    carries the label of a row of the chunk as its parent key. *)
Theorem child_values_clean (label : string) (l : list (cell * Pd.row)) :
  length (one_to_many_rows label l)
    = sum_list ((fun ir => S (count_char "|" (entry_text label ir))) <$> l) /\
  forall (parent_id : cell) (value : string),
    (parent_id, value) ∈ one_to_many_rows label l ->
    PyStr.strip value = value /\ occurs "|" value = false /\
    exists values : Pd.row, (parent_id, values) ∈ l.
Proof.
  split; [apply one_to_many_rows_length|].
  intros parent_id value H. rewrite one_to_many_rows_flat in H.
  apply list_elem_of_join in H. destruct H as (ps & Hv & Hps).
  apply list_elem_of_fmap in Hps. destruct Hps as ([i r] & -> & Hir).
  apply list_elem_of_fmap in Hv. destruct Hv as (piece & Heq & Hp).
  cbn [fst snd] in Heq. inversion Heq; subst parent_id value. clear Heq.
  split; [apply strip_idem|]. split.
  - apply occurs_strip. now apply occurs_split in Hp.
  - now exists r.
Qed.

(** A run of [child_values_clean]: a child of a row with two pipes. *)
Lemma child_values_clean_witness :
  length (one_to_many_rows "1" [(Int 7, {[ "1" := Str " a |b| c" ]})]) = 3%nat /\
  PyStr.strip "c" = "c" /\ occurs "|" "c" = false.
Proof.
  destruct (child_values_clean "1" [(Int 7, {[ "1" := Str " a |b| c" ]})]) as [Hn Hc].
  split; [exact Hn|].
  destruct (Hc (Int 7) "c") as (Hs & Ho & _); [|exact (conj Hs Ho)].
  vm_compute. right. right. left.
Defined.

End ChildValues.

(** ** Failures of the loader *)

Section LoaderFailures.

Variable cfg : config.

Lemma chunked_nonempty {A : Type} (size : Z) (x : cell * A) (l : list (cell * A)) :
  exists c cs, Pd.chunked size (x :: l) = c :: cs.
Proof.
  destruct x as [i a]. cbn [Pd.chunked].
  destruct (Pd.chunked size l) as [|c cs]; [eauto|].
  destruct (Pd.closes_chunk size i); eauto.
Qed.

Lemma import_chunk_without_disease_id (names : list string) (l : list (cell * Pd.row))
    (w : world) :
  "disease_id" ∉ names ->
  import_chunk cfg names "exposure_event" (Frame None names l) w
  = (Raise "AttributeError", w).
Proof.
  intros Hn. unfold import_chunk. unfold mbind at 1. unfold M_bind at 1.
  unfold lift, exposure_event_fix, Pd.prepend_column. cbn [cols].
  rewrite bool_decide_eq_true_2 by reflexivity.
  now rewrite (bool_decide_eq_false_2 _ Hn).
Qed.

(** X17: for the table [exposure_event], when the read plan has no
    column [disease_id] (a plan that fits the file, or the empty plan
    the reconciler returns on drift) [import_table_in_db] raises and
    nothing has been written: the first chunk raises [AttributeError],
    also on a file without data lines, whose reader still yields one
    chunk; under the empty plan on a file without data lines building
    the reader raises [EmptyDataError]. *)
Theorem exposure_event_without_disease_id (file_path : string) (usecols : list nat)
    (names : list string) (width : nat) (w : world) (f : ctd_file) :
  fs w !! file_path = Some f ->
  "disease_id" ∉ names ->
  (usecols = [] /\ names = []) \/
    (plan_fits usecols names width /\ rectangular width (data f)) ->
  import_table_in_db cfg file_path usecols names "exposure_event" w
  = (Raise match names, data f with
           | [], [] => "EmptyDataError"
           | _, _ => "AttributeError"
           end, w).
Proof.
  intros Hf Hn _. unfold import_table_in_db. unfold mbind at 1. unfold M_bind at 1.
  unfold open_file. rewrite Hf. unfold mbind at 1. unfold M_bind at 1.
  unfold lift, Pd.read_table_chunks.
  destruct (data f) as [|line rest].
  - destruct names as [|n names]; [reflexivity|].
    cbn [for_each]. unfold mbind at 1. unfold M_bind at 1.
    now rewrite (import_chunk_without_disease_id (n :: names) [] w Hn).
  - assert (Hres : match names with
                   | [] => "AttributeError"
                   | _ :: _ => "AttributeError"
                   end = "AttributeError") by now destruct names.
    rewrite Hres. clear Hres.
    assert (Hne : exists c cs,
              match usecols with
              | [] => (fun _ => []) <$> Pd.chunked chunksize (Pd.range_index 0 (line :: rest))
              | _ :: _ => Pd.chunked chunksize
                            (rows (Pd.read_table usecols names (line :: rest)))
              end = c :: cs).
    { destruct usecols as [|k usecols].
      - cbn [Pd.range_index].
        destruct (chunked_nonempty chunksize (Int 0, line) (Pd.range_index (0 + 1) rest))
          as (c & cs & ->).
        rewrite fmap_cons. eauto.
      - unfold Pd.read_table. cbn [rows]. rewrite fmap_cons. cbn [Pd.range_index].
        eapply chunked_nonempty. }
    destruct Hne as (c & cs & ->). rewrite fmap_cons.
    cbn [for_each]. unfold mbind at 1. unfold M_bind at 1.
    now rewrite (import_chunk_without_disease_id names c w Hn).
Qed.

(** X18: [import_table] logs its line and then, when the file of the
    table is not there, raises [FileNotFoundError], and, when the file
    has no header the scan finds, raises [TypeError]; in both cases the
    database, the files and the trace of effects are as before. *)
Theorem import_table_unreadable (t : Table) (w : world) :
  let file_path := path_join (PYCTD_DATA_DIR cfg) (file_name t) in
  let w1 := logged (import_message (PYCTD_DATA_DIR cfg) t) w in
  (fs w !! file_path = None ->
   import_table cfg t w = (Raise "FileNotFoundError", w1)) /\
  (forall f : ctd_file,
     fs w !! file_path = Some f ->
     column_names_scan false (lines f) = None ->
     import_table cfg t w = (Raise "TypeError", w1)).
Proof.
  cbv zeta. split.
  - intros Hf. unfold import_table. unfold mbind at 1. unfold M_bind at 1.
    unfold log_info, modify. unfold mbind at 1. unfold M_bind at 1.
    unfold get_index_and_columns_order. unfold mbind at 1. unfold M_bind at 1.
    unfold get_column_names_from_file. unfold mbind at 1. unfold M_bind at 1.
    unfold open_file. cbn [fs]. rewrite Hf. reflexivity.
  - intros f Hf Hs. unfold import_table. unfold mbind at 1. unfold M_bind at 1.
    unfold log_info, modify. unfold mbind at 1. unfold M_bind at 1.
    unfold get_index_and_columns_order. unfold mbind at 1. unfold M_bind at 1.
    unfold get_column_names_from_file. unfold mbind at 1. unfold M_bind at 1.
    unfold open_file. cbn [fs]. rewrite Hf. unfold mret, M_ret. rewrite Hs. reflexivity.
Qed.

End LoaderFailures.

(** Runs of [exposure_event_without_disease_id] on the gene file: under a
    plan that fits, and under the empty plan on a file without data
    lines. *)
Lemma exposure_event_without_disease_id_witness :
  import_table_in_db gene_config "data/genes.tsv" [0%nat] ["gene_id"] "exposure_event"
                     gene_world
  = (Raise "AttributeError", gene_world) /\
  import_table_in_db gene_config "f" [] [] "exposure_event"
                     (World {[ "f" := CtdFile ["# Fields:"; "# a"] [] ]} ∅ ∅ [] ∅ [])
  = (Raise "EmptyDataError", World {[ "f" := CtdFile ["# Fields:"; "# a"] [] ]} ∅ ∅ [] ∅ []).
Proof.
  split.
  - apply (exposure_event_without_disease_id gene_config "data/genes.tsv" [0%nat] ["gene_id"]
             2%nat gene_world gene_file).
    + reflexivity.
    + intros H. apply list_elem_of_singleton in H. discriminate H.
    + right. split; [|repeat constructor].
      split; [discriminate|]. split; [reflexivity|].
      split; [repeat constructor|]. split; [repeat constructor|apply NoDup_singleton].
  - apply (exposure_event_without_disease_id gene_config "f" [] [] 0%nat
             (World {[ "f" := CtdFile ["# Fields:"; "# a"] [] ]} ∅ ∅ [] ∅ [])
             (CtdFile ["# Fields:"; "# a"] [])).
    + reflexivity.
    + intros H. inversion H.
    + left. split; reflexivity.
Defined.

(** A run of [import_table_unreadable]: the file of the table is not
    there. *)
Lemma import_table_unreadable_witness :
  import_table gene_config (Table_init "gene" (TableConf [] "absent.tsv" None None)) gene_world
  = (Raise "FileNotFoundError",
     logged "import CTD from file path data/absent.tsv data into table gene" gene_world).
Proof.
  apply (proj1 (import_table_unreadable gene_config
                  (Table_init "gene" (TableConf [] "absent.tsv" None None)) gene_world)).
  reflexivity.
Defined.

(** ** The import of one table, end to end *)

Section ImportTable.

Variable cfg : config.

Lemma reconciler_ok_run (expected : list string) (columns_dict : gmap string string)
    (file_path : string) (w : world) (f : ctd_file) (header : list string) :
  fs w !! file_path = Some f ->
  column_names_scan false (lines f) = Some header ->
  expected ⊆ header ->
  get_index_and_columns_order expected columns_dict file_path w
  = (Ok (index_and_columns columns_dict O header), w).
Proof.
  intros Hf Hs Hsub. unfold get_index_and_columns_order.
  unfold mbind at 1. unfold M_bind at 1.
  rewrite (get_column_names_from_file_ok _ _ _ Hf), Hs.
  now rewrite (bool_decide_eq_true_2 _ Hsub).
Qed.

Lemma get_index_of_column_found (column file_path : string) (w : world)
    (f : ctd_file) (header : list string) :
  fs w !! file_path = Some f ->
  column_names_scan false (lines f) = Some header ->
  column ∈ header ->
  exists k : nat, get_index_of_column column file_path w = (Ok (Some k), w).
Proof.
  intros Hf Hs Hin. unfold get_index_of_column.
  unfold mbind at 1. unfold M_bind at 1.
  rewrite (get_column_names_from_file_ok _ _ _ Hf), Hs.
  rewrite (bool_decide_eq_true_2 _ Hin).
  pose proof (list_index_first column header) as Hfirst.
  destruct (list_index column header) as [k|]; [now exists k|].
  cbn in Hfirst. contradiction.
Qed.

Lemma child_table_not_main (prefix : string) (t : Table) (column : string) :
  child_table prefix t column <> main_table prefix t.
Proof.
  unfold child_table, main_table. intros H.
  apply (f_equal String.length) in H. rewrite !length_app_string in H.
  cbn in H. lia.
Qed.

Lemma one_to_many_loop (t : Table) (f : ctd_file) (header : list string)
    (l : list (string * string)) :
  column_names_scan false (lines f) = Some header ->
  data f <> [] ->
  forall w : world,
    fs w !! path_join (PYCTD_DATA_DIR cfg) (file_name t) = Some f ->
    Forall (fun o2m => o2m.1 ∈ header /\
                       is_Some (db w !! child_table (TABLE_PREFIX cfg) t o2m.2)) l ->
    exists w' : world,
      for_each l
        (fun o2m =>
           let '(column_in_file, column_in_one2many_table) := o2m in
           o2m_column_index ← get_index_of_column column_in_file
                                (path_join (PYCTD_DATA_DIR cfg) (file_name t));
           import_one_to_many cfg (path_join (PYCTD_DATA_DIR cfg) (file_name t))
                              o2m_column_index (name t) column_in_one2many_table) w
        = (Ok tt, w') /\
      fs w' = fs w /\
      (forall n, is_Some (db w !! n) -> is_Some (db w' !! n)) /\
      (forall n, Forall (fun o2m => n <> child_table (TABLE_PREFIX cfg) t o2m.2) l ->
                 db w' !! n = db w !! n).
Proof.
  intros Hs Hdata. induction l as [|[cf co] l IH]; intros w Hf Hall.
  - exists w. cbn. auto.
  - apply Forall_cons in Hall. destruct Hall as [[Hin [old Hold]] Hall]. cbn [fst snd] in *.
    destruct (get_index_of_column_found cf _ w f header Hf Hs Hin) as [k Hk].
    destruct (import_one_to_many_run cfg _ k (name t) co w f old Hf Hdata Hold)
      as (w1 & Hrun & Hd & Ho & Hfs).
    assert (Hkeep : forall n, is_Some (db w !! n) -> is_Some (db w1 !! n)).
    { intros n Hn. destruct (decide (n = child_table (TABLE_PREFIX cfg) t co)) as [->|Hne].
      - unfold child_table. rewrite Hd. eauto.
      - now rewrite (Ho n Hne). }
    destruct (IH w1) as (w' & Hloop & Hfs' & Hkeep' & Ho').
    { now rewrite Hfs. }
    { eapply Forall_impl; [exact Hall|]. intros [cf' co'] [H1 H2]. split; [exact H1|].
      now apply Hkeep. }
    exists w'. split; [|split; [|split]].
    + cbn [for_each]. unfold mbind at 1. unfold M_bind at 1.
      unfold mbind at 1. unfold M_bind at 1. rewrite Hk, Hrun. exact Hloop.
    + now rewrite Hfs', Hfs.
    + intros n Hn. now apply Hkeep', Hkeep.
    + intros n Hn. apply Forall_cons in Hn. destruct Hn as [Hn1 Hn]. cbn [snd] in Hn1.
      rewrite (Ho' n Hn). now apply Ho.
Qed.

(** X19: for a table that is ready for its import, [import_table]
    returns; the table of the parent has received one row per data line
    of the file, in file order, with the columns of the plan the
    header gives and the key ordinal plus one; every table that was
    there still is; no table other than the parent's and those of its
    one-to-many columns has changed; and the files are as before. *)
Theorem import_table_domain (t : Table) (w : world) (f : ctd_file)
    (header : list string) (old : list Pd.row) :
  importable cfg t w f header ->
  db w !! main_table (TABLE_PREFIX cfg) t = Some old ->
  let plan := index_and_columns (columns_dict t) O header in
  let run := import_table cfg t w in
  run.1 = Ok tt /\
  db run.2 !! main_table (TABLE_PREFIX cfg) t
    = Some (old ++ (loader_row
                      <$> Pd.range_index 0 (Pd.select plan.1 plan.2 <$> data f))) /\
  (forall n, is_Some (db w !! n) -> is_Some (db run.2 !! n)) /\
  (forall n, n <> main_table (TABLE_PREFIX cfg) t ->
             Forall (fun o2m => n <> child_table (TABLE_PREFIX cfg) t o2m.2) (one_to_many t) ->
             db run.2 !! n = db w !! n) /\
  fs run.2 = fs w.
Proof.
  intros (Hf & Hs & Hsub & Hdata & _ & Hplan & Hdom & Hexp & _ & Hall) Hold. cbv zeta.
  set (file_path := path_join (PYCTD_DATA_DIR cfg) (file_name t)) in *.
  set (w0 := logged (import_message (PYCTD_DATA_DIR cfg) t) w).
  destruct (index_and_columns (columns_dict t) O header) as [usecols names] eqn:Eplan.
  cbn [fst snd] in *. destruct Hplan as (Hu & Hlen & _).
  destruct (read_table_chunks_ok usecols names chunksize (data f) (or_intror Hdata))
    as [chunks Ech].
  assert (Hall2 : Forall (fun chunk => Forall int_label (rows chunk)) chunks).
  { apply Forall_forall. intros chunk Hc.
    now destruct (read_table_chunks_int_label _ _ _ _ _ _ Ech Hc). }
  destruct (import_chunks_domain cfg names (name t) _ Hdom Hexp Hall2 w0 old Hold)
    as (Hr & Hd & Ho & Hfs).
  rewrite (read_table_chunks_join usecols names chunksize (data f) chunks Hu Ech) in Hd.
  destruct (for_each chunks (import_chunk cfg names (name t)) w0) as [r w1] eqn:Eload.
  cbn [fst snd] in Hr, Hd, Ho, Hfs. subst r.
  destruct (one_to_many_loop t f header (one_to_many t) Hs Hdata w1)
    as (w2 & Hloop & Hfs2 & Hkeep & Ho2).
  { rewrite Hfs. exact Hf. }
  { eapply Forall_impl; [exact Hall|]. intros [cf co] [H1 H2]. split; [exact H1|].
    cbn [snd] in *. destruct (decide (child_table (TABLE_PREFIX cfg) t co
                                       = TABLE_PREFIX cfg +:+ name t)) as [E|E].
    - now apply child_table_not_main in E.
    - now rewrite (Ho _ E). }
  assert (Erun : import_table cfg t w = (Ok tt, w2)).
  { unfold import_table. fold file_path. unfold mbind at 1. unfold M_bind at 1.
    change (log_info _ w) with (Ok tt, w0).
    unfold mbind at 1. unfold M_bind at 1.
    rewrite (reconciler_ok_run _ _ file_path w0 f header Hf Hs Hsub), Eplan.
    unfold mbind at 1. unfold M_bind at 1.
    unfold import_table_in_db. unfold mbind at 1. unfold M_bind at 1.
    unfold open_file. change (fs w0) with (fs w). rewrite Hf.
    unfold mbind at 1. unfold M_bind at 1. unfold lift. rewrite Ech, Eload. exact Hloop. }
  rewrite Erun. cbn [fst snd]. split; [reflexivity|]. split; [|split; [|split]].
  - rewrite Ho2; [exact Hd|].
    apply Forall_forall. intros [cf co] _ E. symmetry in E.
    now apply child_table_not_main in E.
  - intros n Hn. apply Hkeep.
    destruct (decide (n = TABLE_PREFIX cfg +:+ name t)) as [->|Hne].
    + rewrite Hd. eauto.
    + now rewrite (Ho n Hne).
  - intros n Hn1 Hn2. rewrite (Ho2 n Hn2). now apply Ho.
  - now rewrite Hfs2, Hfs.
Qed.

End ImportTable.

(** A run of [import_table_domain] on the gene table: three rows with
    the keys 1, 2, 3, the second without synonyms. *)
Lemma import_table_domain_witness :
  let run := import_table gene_config gene_table gene_ready_world in
  run.1 = Ok tt /\
  db run.2 !! "ctd_gene"
    = Some [ <["id" := Int 1]> (<["gene_id" := Str "A1"]> {[ "synonyms" := Str "x|y" ]});
             <["id" := Int 2]> (<["gene_id" := Str "B2"]> {[ "synonyms" := NaN ]});
             <["id" := Int 3]> (<["gene_id" := Str "C3"]> {[ "synonyms" := Str "z" ]}) ].
Proof.
  intros run.
  destruct (import_table_domain gene_config gene_table gene_ready_world gene_file
              ["GeneID"; "Synonyms"] [])
    as (Hr & Hd & _).
  - split; [reflexivity|]. split; [vm_compute; reflexivity|].
    split.
    { apply (bool_decide_eq_true_1
               (columns_in_file_expected gene_table ⊆ ["GeneID"; "Synonyms"])).
      vm_compute. reflexivity. }
    split; [discriminate|]. split; [repeat constructor|].
    split.
    { split; [discriminate|]. split; [reflexivity|].
      split; [repeat constructor|]. split; [repeat constructor|].
      apply (bool_decide_eq_true_1 (NoDup ["gene_id"; "synonyms"])). vm_compute. reflexivity. }
    split; [left|]. split; [discriminate|]. split; [eexists; reflexivity|].
    constructor; [|constructor]. cbn [fst snd].
    split; [right; left | eexists; reflexivity].
  - reflexivity.
  - split; [exact Hr|]. etransitivity; [exact Hd|]. vm_compute. reflexivity.
Defined.

(** ** Where a download is stored *)

Section DownloadPath.

Variable cfg : config.

Lemma startswith_app (p s : string) : PyStr.startswith p (p +:+ s) = true.
Proof.
  induction p as [|a p IH]; [reflexivity|].
  rewrite app_cons_string. cbn [PyStr.startswith]. now rewrite Ascii.eqb_refl.
Qed.

Lemma startswith_char (c : ascii) (s : string) :
  occurs c s = false -> PyStr.startswith (String c EmptyString) s = false.
Proof.
  destruct s as [|a s]; [reflexivity|]. cbn [occurs PyStr.startswith].
  intros H. apply orb_false_elim in H. destruct H as [H _].
  rewrite Ascii.eqb_sym, H. reflexivity.
Qed.

(** X20: the path [get_path_to_file_from_url] gives is the data
    directory followed by the last piece of the URL's path between
    slashes: the piece holds no slash, so the path is never the piece
    alone, and it starts with the data directory. *)
Theorem download_path_in_data_dir (url : string) :
  exists file_name : string,
    last (PyStr.split "/" (urlparse_path cfg url)) = Some file_name /\
    occurs "/" file_name = false /\
    get_path_to_file_from_url cfg url
      = (if bool_decide (PYCTD_DATA_DIR cfg = "") || PyStr.endswith "/" (PYCTD_DATA_DIR cfg)
         then PYCTD_DATA_DIR cfg +:+ file_name
         else PYCTD_DATA_DIR cfg +:+ "/" +:+ file_name) /\
    PyStr.startswith (PYCTD_DATA_DIR cfg) (get_path_to_file_from_url cfg url) = true.
Proof.
  unfold get_path_to_file_from_url.
  destruct (last (PyStr.split "/" (urlparse_path cfg url))) as [file_name|] eqn:E.
  - exists file_name. split; [reflexivity|].
    assert (Hno : occurs "/" file_name = false).
    { apply last_Some in E. destruct E as [l' E].
      apply (occurs_split "/" (urlparse_path cfg url)). rewrite E.
      apply elem_of_app. right. left. }
    split; [exact Hno|]. cbn [default]. unfold path_join, id.
    rewrite (startswith_char _ _ Hno).
    destruct (bool_decide (PYCTD_DATA_DIR cfg = "") || PyStr.endswith "/" (PYCTD_DATA_DIR cfg));
      (split; [reflexivity | apply startswith_app]).
  - apply last_None in E. apply (f_equal length) in E.
    rewrite split_length in E. discriminate E.
Qed.

End DownloadPath.

(** * The keys of the rows written *)

(** ** The rows a join makes of a row *)

Section JoinRows.





Section Rows.

Variables (m : gmap string frame) (names : list string).


End Rows.

End JoinRows.

Section RowsOfARow.



Variables (m : gmap string frame) (names : list string).


End RowsOfARow.

(** ** The rows the loader writes for a chunk *)

Section LoaderChunk.

Variable cfg : config.














End LoaderChunk.

(** ** The rows the loader writes for a file *)

Section LoaderFile.

Variable cfg : config.





End LoaderFile.

(** ** Surrogate keys *)

Section SurrogateKeys.

Variable cfg : config.



End SurrogateKeys.



(** * Schema drift and the load of the table *)

Section SchemaDrift.

Variable cfg : config.








End SchemaDrift.


